(** * Tiered voice messaging: access control and participant materialization

    A shallow embedding of the relational schema, the row-level security
    policies and the [add_conversation_participants] trigger defined in
    [supabase/migrations], and of the recording state machines of
    [src/components/conversations/AudioRecorder.tsx] and of the
    [MessageInput] component.

    Tables are finite maps keyed by their primary key.  A statement either
    yields the new database or raises an SQL error; an error aborts the
    statement, so the database stays as it was. *)

From stdpp Require Import gmap strings list fin_maps.
From Stdlib Require Import ZArith Ascii.
From Stdlib Require QArith_base.

Open Scope string_scope.

(** ** Schema *)

(** UUID values.  [auth.uid()] of an authenticated requester is one of them. *)
Abbreviation uuid := positive (only parsing).

(** [role TEXT NOT NULL CHECK (role IN ('client','mentor','training_director'))] *)
Inductive role : Set :=
  | client
  | mentor
  | training_director.

#[global] Instance role_eq_dec : EqDecision role.
Proof. solve_decision. Defined.

(** A row of [profiles]; the key [id] is the key of the table map. *)
Record profile : Set := Profile {
  p_role : role;
  p_mentor_id : option uuid;
  p_director_id : option uuid;
  p_full_name : string
}.

(** A row of [conversations]. *)
Record conversation : Set := Conversation {
  c_client_id : uuid;
  c_mentor_id : uuid
}.

(** A row of [audio_messages]. *)
Record audio_message : Set := AudioMessage {
  m_conversation_id : uuid;
  m_sender_id : uuid;
  m_audio_url : string;
  m_duration : Z
}.

(** A row of [folders]. *)
Record folder : Set := Folder {
  f_owner_id : uuid;
  f_name : string
}.

(** A row of [storage.objects]. *)
Record storage_object : Set := StorageObject {
  o_bucket_id : string;
  o_name : string;
  o_owner : option uuid
}.

(** The database.  [conversation_participants] has the primary key
    [(conversation_id, user_id)], [folder_items] the primary key
    [(folder_id, message_id)]. *)
Record database : Type := Database {
  profiles : gmap uuid profile;
  conversations : gmap uuid conversation;
  conversation_participants : gmap (uuid * uuid) role;
  audio_messages : gmap uuid audio_message;
  folders : gmap uuid folder;
  folder_items : gmap (uuid * uuid) unit
}.

Definition with_conversations (cs : gmap uuid conversation) (db : database) : database :=
  Database (profiles db) cs (conversation_participants db)
           (audio_messages db) (folders db) (folder_items db).

Definition with_conversation_participants (ps : gmap (uuid * uuid) role) (db : database) : database :=
  Database (profiles db) (conversations db) ps
           (audio_messages db) (folders db) (folder_items db).

Definition with_audio_messages (ms : gmap uuid audio_message) (db : database) : database :=
  Database (profiles db) (conversations db) (conversation_participants db)
           ms (folders db) (folder_items db).

Definition with_folder_items (fi : gmap (uuid * uuid) unit) (db : database) : database :=
  Database (profiles db) (conversations db) (conversation_participants db)
           (audio_messages db) (folders db) fi.

(** ** Statement outcomes *)

Inductive sql_error : Set :=
  | rls_violation (table : string)
  | unique_violation (constraint : string)
  | foreign_key_violation (constraint : string).

Inductive result (A : Type) : Type :=
  | Ok (a : A)
  | Err (e : sql_error).

Arguments Ok {A} a.
Arguments Err {A} e.

#[global] Instance result_ret : MRet result := fun _ a => Ok a.

#[global] Instance result_bind : MBind result := fun _ _ f r =>
  match r with
  | Ok a => f a
  | Err e => Err e
  end.

(** A failed statement is rolled back: the stored state is the one before. *)
Definition commit (db : database) (r : result database) : database :=
  match r with
  | Ok db' => db'
  | Err _ => db
  end.

(** ** Membership *)

(** [is_conversation_member(conv_uuid)]: a [conversation_participants] row
    with this conversation and [user_id = auth.uid()] exists.  The function
    is SECURITY DEFINER, it reads the whole table. *)
Definition is_conversation_member (db : database) (uid conv_uuid : uuid) : bool :=
  bool_decide (is_Some (conversation_participants db !! (conv_uuid, uid))).

(** One [INSERT INTO conversation_participants ... VALUES (...)] without an
    ON CONFLICT clause: the primary key and both foreign keys are checked. *)
Definition insert_participant (conversation_id user_id : uuid) (r : role)
    (db : database) : result database :=
  if bool_decide (is_Some (conversation_participants db !! (conversation_id, user_id)))
  then Err (unique_violation "conversation_participants_pkey")
  else if bool_decide (conversations db !! conversation_id = None)
  then Err (foreign_key_violation "conversation_participants_conversation_id_fkey")
  else if bool_decide (profiles db !! user_id = None)
  then Err (foreign_key_violation "conversation_participants_user_id_fkey")
  else Ok (with_conversation_participants
             (<[(conversation_id, user_id) := r]> (conversation_participants db)) db).

(** The trigger function [add_conversation_participants()], run AFTER INSERT
    for the row [NEW] with key [new_id]. *)
Definition add_conversation_participants (new_id : uuid) (NEW : conversation)
    (db : database) : result database :=
  let director_id := profiles db !! c_mentor_id NEW ≫= p_director_id in
  db1 ← insert_participant new_id (c_client_id NEW) client db;
  db2 ← insert_participant new_id (c_mentor_id NEW) mentor db1;
  match director_id with
  | Some d => insert_participant new_id d training_director db2
  | None => Ok db2
  end.

(** ** Policies on [conversations] *)

(** "Clients can create conversations with their mentor", WITH CHECK.  In the
    subquery over [profiles], [id] and [mentor_id] are columns of [profiles];
    [client_id] is the column of the new conversation row. *)
Definition conversations_insert_policy (db : database) (uid : uuid)
    (NEW : conversation) : bool :=
  bool_decide (c_client_id NEW = uid)
  || (bool_decide (c_mentor_id NEW = uid)
      || match profiles db !! c_client_id NEW with
         | Some p => bool_decide (p_mentor_id p = Some uid)
         | None => false
         end).

(** The rows of [conversation_participants] a requester can select:
    "Users can view participants of their conversations". *)
Definition visible_participants (db : database) (uid : uuid) : gmap (uuid * uuid) role :=
  filter (λ kv, is_conversation_member db uid (kv.1).1 = true)
         (conversation_participants db).

(** "Users can view conversations they participate in", as replaced by the
    last migration: EXISTS over [conversation_participants].  The subquery
    runs with the requester's rights, so it sees [visible_participants]. *)
Definition conversations_select_policy (db : database) (uid conv_id : uuid) : bool :=
  bool_decide (is_Some (visible_participants db uid !! (conv_id, uid))).

(** [INSERT INTO conversations (id, client_id, mentor_id) VALUES ...] by
    requester [uid]: policy check, primary key, foreign keys, then the
    AFTER INSERT trigger in the same statement. *)
Definition insert_conversation (uid new_id : uuid) (NEW : conversation)
    (db : database) : result database :=
  if negb (conversations_insert_policy db uid NEW)
  then Err (rls_violation "conversations")
  else if bool_decide (is_Some (conversations db !! new_id))
  then Err (unique_violation "conversations_pkey")
  else if bool_decide (profiles db !! c_client_id NEW = None)
  then Err (foreign_key_violation "conversations_client_id_fkey")
  else if bool_decide (profiles db !! c_mentor_id NEW = None)
  then Err (foreign_key_violation "conversations_mentor_id_fkey")
  else add_conversation_participants new_id NEW
         (with_conversations (<[new_id := NEW]> (conversations db)) db).

(** ** Policies and statements on [audio_messages] *)

(** "Conversation members can read messages", USING. *)
Definition audio_messages_select_policy (db : database) (uid : uuid)
    (m : audio_message) : bool :=
  is_conversation_member db uid (m_conversation_id m).

(** "Conversation members can add messages", WITH CHECK. *)
Definition audio_messages_insert_policy (db : database) (uid : uuid)
    (NEW : audio_message) : bool :=
  is_conversation_member db uid (m_conversation_id NEW)
  && bool_decide (m_sender_id NEW = uid).

(** "Senders can delete their own messages", USING. *)
Definition audio_messages_delete_policy (uid : uuid) (m : audio_message) : bool :=
  bool_decide (m_sender_id m = uid).

(** The rows of [audio_messages] a requester can select. *)
Definition visible_audio_messages (db : database) (uid : uuid) : gmap uuid audio_message :=
  filter (λ kv, audio_messages_select_policy db uid kv.2 = true) (audio_messages db).

(** [INSERT INTO audio_messages ...] by requester [uid]. *)
Definition insert_audio_message (uid new_id : uuid) (NEW : audio_message)
    (db : database) : result database :=
  if negb (audio_messages_insert_policy db uid NEW)
  then Err (rls_violation "audio_messages")
  else if bool_decide (is_Some (audio_messages db !! new_id))
  then Err (unique_violation "audio_messages_pkey")
  else if bool_decide (conversations db !! m_conversation_id NEW = None)
  then Err (foreign_key_violation "audio_messages_conversation_id_fkey")
  else if bool_decide (profiles db !! m_sender_id NEW = None)
  then Err (foreign_key_violation "audio_messages_sender_id_fkey")
  else Ok (with_audio_messages (<[new_id := NEW]> (audio_messages db)) db).

(** [DELETE FROM audio_messages WHERE id = msg_id] by requester [uid].  The
    statement reads the row it filters on, so the row has to pass the SELECT
    policy as well as the DELETE policy; a row that does not pass is left in
    place and no error is raised.  [folder_items.message_id] is declared
    ON DELETE CASCADE. *)
Definition delete_audio_message (uid msg_id : uuid) (db : database) : database :=
  match audio_messages db !! msg_id with
  | Some m =>
      if audio_messages_select_policy db uid m && audio_messages_delete_policy uid m
      then with_folder_items
             (filter (λ kv, (kv.1).2 ≠ msg_id) (folder_items db))
             (with_audio_messages (delete msg_id (audio_messages db)) db)
      else db
  | None => db
  end.

(** ** Policies and statements on [folders] and [folder_items] *)

(** "Users can manage their own folders", USING. *)
Definition folders_policy (uid : uuid) (f : folder) : bool :=
  bool_decide (f_owner_id f = uid).

(** The rows of [folders] a requester can select. *)
Definition visible_folders (db : database) (uid : uuid) : gmap uuid folder :=
  filter (λ kv, folders_policy uid kv.2 = true) (folders db).

(** "Users can manage items in their folders", WITH CHECK:
    [folder_id IN (SELECT id FROM folders WHERE owner_id = auth.uid())
     AND EXISTS (SELECT 1 FROM audio_messages m WHERE m.id = message_id
                 AND is_conversation_member(m.conversation_id))].
    Both subqueries run with the requester's rights. *)
Definition folder_items_insert_policy (db : database) (uid : uuid)
    (folder_id message_id : uuid) : bool :=
  match visible_folders db uid !! folder_id with
  | Some f => bool_decide (f_owner_id f = uid)
  | None => false
  end
  && match visible_audio_messages db uid !! message_id with
     | Some m => is_conversation_member db uid (m_conversation_id m)
     | None => false
     end.

(** [INSERT INTO folder_items (folder_id, message_id) VALUES ...]. *)
Definition insert_folder_item (uid folder_id message_id : uuid)
    (db : database) : result database :=
  if negb (folder_items_insert_policy db uid folder_id message_id)
  then Err (rls_violation "folder_items")
  else if bool_decide (is_Some (folder_items db !! (folder_id, message_id)))
  then Err (unique_violation "folder_items_pkey")
  else if bool_decide (folders db !! folder_id = None)
  then Err (foreign_key_violation "folder_items_folder_id_fkey")
  else if bool_decide (audio_messages db !! message_id = None)
  then Err (foreign_key_violation "folder_items_message_id_fkey")
  else Ok (with_folder_items (<[(folder_id, message_id) := ()]> (folder_items db)) db).

(** ** Policy on [storage.objects] *)

(** [string_to_array(name, '/')]: the empty text gives the empty array. *)
Fixpoint split_slash (s : string) : list string :=
  match s with
  | EmptyString => [""]
  | String c s' =>
      if bool_decide (c = "/"%char) then "" :: split_slash s'
      else match split_slash s' with
           | [] => [String c ""]
           | h :: t => String c h :: t
           end
  end.

Definition string_to_array (s : string) : list string :=
  if bool_decide (s = "") then [] else split_slash s.

(** [storage.foldername(name)] of the storage service: the path segments of
    [name] without the last one (the file name). *)
Definition foldername (name : string) : list string :=
  removelast (string_to_array name).

(** "Only conversation members can read audio files", USING:
    [bucket_id = 'voices' AND
     is_conversation_member((storage.foldername(name))[1]::uuid)].
    [uuid_of_text] is the cast of a text to a UUID; a missing first segment
    (NULL) and a text that is no UUID (the cast raises) both yield no row. *)
Definition storage_objects_select_policy (uuid_of_text : string → option uuid)
    (db : database) (uid : uuid) (o : storage_object) : bool :=
  bool_decide (o_bucket_id o = "voices")
  && match head (foldername (o_name o)) ≫= uuid_of_text with
     | Some conv_uuid => is_conversation_member db uid conv_uuid
     | None => false
     end.

(** ** The hierarchy resolver *)

(** [isMember(principal, conversation)] in the words of the specification:
    the principal is the conversation's client, or its mentor, or the
    training director that the director-reference of the conversation's
    mentor points to. *)
Definition isMember (db : database) (principal : uuid) (c : conversation) : Prop :=
  principal = c_client_id c
  ∨ principal = c_mentor_id c
  ∨ profiles db !! c_mentor_id c ≫= p_director_id = Some principal.

(** The first version of "Users can view conversations they participate in":
    [client_id = auth.uid() OR mentor_id = auth.uid() OR EXISTS (SELECT 1 FROM
     profiles mentor WHERE mentor.id = mentor_id AND mentor.director_id =
     auth.uid())].  Inside the subquery the unqualified [mentor_id] is the
    column of [profiles] (the innermost table that has one), so the third
    disjunct compares a profile with its own [mentor_id]. *)
Definition conversations_select_policy_legacy (db : database) (uid : uuid)
    (c : conversation) : bool :=
  bool_decide (c_client_id c = uid)
  || (bool_decide (c_mentor_id c = uid)
      || bool_decide (map_Exists (λ id p, p_mentor_id p = Some id
                                          ∧ p_director_id p = Some uid)
                                 (profiles db))).

(** ** The backfill migration *)

(** Rows of [conversation_participants]: key and role. *)
Abbreviation participant_row := ((uuid * uuid) * role)%type (only parsing).

(** [INSERT ... ON CONFLICT (conversation_id, user_id) DO NOTHING] of one row:
    an existing key is skipped, the foreign keys are still checked. *)
Definition insert_participant_do_nothing (conversation_id user_id : uuid) (r : role)
    (db : database) : result database :=
  if bool_decide (is_Some (conversation_participants db !! (conversation_id, user_id)))
  then Ok db
  else insert_participant conversation_id user_id r db.

(** [INSERT INTO conversation_participants SELECT ...]: the selected rows are
    inserted one after the other, the first error aborts the statement. *)
Fixpoint insert_rows (ins : uuid → uuid → role → database → result database)
    (rows : list participant_row) (db : database) : result database :=
  match rows with
  | [] => Ok db
  | row :: rest => db' ← ins (row.1).1 (row.1).2 row.2 db; insert_rows ins rest db'
  end.

(** [SELECT DISTINCT c.id, p.id, 'training_director' FROM conversations c
     JOIN profiles m ON m.id = c.mentor_id
     JOIN profiles p ON p.full_name = 'Greg Bottaro'
     WHERE m.director_id = p.id] *)
Definition backfill_director_rows (db : database) : list participant_row :=
  omap (λ kc : uuid * conversation,
          m ← profiles db !! c_mentor_id kc.2;
          d ← p_director_id m;
          p ← profiles db !! d;
          if bool_decide (p_full_name p = "Greg Bottaro")
          then Some ((kc.1, d), training_director) else None)
       (map_to_list (conversations db)).

(** [SELECT c.id, c.client_id, 'client' FROM conversations c WHERE NOT EXISTS
     (SELECT 1 FROM conversation_participants cp
      WHERE cp.conversation_id = c.id AND cp.user_id = c.client_id)] *)
Definition backfill_client_rows (db : database) : list participant_row :=
  omap (λ kc : uuid * conversation,
          match conversation_participants db !! (kc.1, c_client_id kc.2) with
          | None => Some ((kc.1, c_client_id kc.2), client)
          | Some _ => None
          end)
       (map_to_list (conversations db)).

(** The same for [c.mentor_id] and ['mentor']. *)
Definition backfill_mentor_rows (db : database) : list participant_row :=
  omap (λ kc : uuid * conversation,
          match conversation_participants db !! (kc.1, c_mentor_id kc.2) with
          | None => Some ((kc.1, c_mentor_id kc.2), mentor)
          | Some _ => None
          end)
       (map_to_list (conversations db)).

(** The three statements of the migration, in order. *)
Definition backfill (db : database) : result database :=
  db1 ← insert_rows insert_participant_do_nothing (backfill_director_rows db) db;
  db2 ← insert_rows insert_participant (backfill_client_rows db1) db1;
  insert_rows insert_participant (backfill_mentor_rows db2) db2.

(** ** Requests *)

Inductive request : Type :=
  | InsertConversation (new_id : uuid) (NEW : conversation)
  | InsertAudioMessage (new_id : uuid) (NEW : audio_message)
  | DeleteAudioMessage (msg_id : uuid)
  | InsertFolderItem (folder_id message_id : uuid).

(** One request of requester [uid], committed or rolled back. *)
Definition step (db : database) (ur : uuid * request) : database :=
  match ur.2 with
  | InsertConversation new_id NEW => commit db (insert_conversation ur.1 new_id NEW db)
  | InsertAudioMessage new_id NEW => commit db (insert_audio_message ur.1 new_id NEW db)
  | DeleteAudioMessage msg_id => delete_audio_message ur.1 msg_id db
  | InsertFolderItem folder_id message_id =>
      commit db (insert_folder_item ur.1 folder_id message_id db)
  end.

Definition run (db : database) (rs : list (uuid * request)) : database :=
  foldl step db rs.

(** ** The audio recorder component *)

(** [MediaRecorder.state] *)
Inductive recording_state : Set :=
  | inactive
  | recording.

(** State and refs of the [AudioRecorder] component.  [audioBlob] records
    whether a blob is set, [timerRef] whether the interval is running; times
    are milliseconds as returned by [Date.now()], [recordingTime] is in
    seconds. *)
Record recorder : Set := Recorder {
  isRecording : bool;
  recordingTime : Z;
  audioBlob : bool;
  mediaRecorderRef : option recording_state;
  timerRef : bool;
  startTimeRef : Z
}.

Definition initial_recorder : recorder :=
  Recorder false 0 false None false 0.

(** [updateTimer], called with the value of [Date.now()]. *)
Definition updateTimer (now : Z) (st : recorder) : recorder :=
  if (startTimeRef st =? 0)%Z then st
  else Recorder (isRecording st) ((now - startTimeRef st) / 1000)%Z (audioBlob st)
                (mediaRecorderRef st) (timerRef st) (startTimeRef st).

(** [startRecording] once [getUserMedia] has resolved, at time [now]: the
    recorder is started and the one-second interval of [updateTimer] is set.
    No other timer is installed. *)
Definition startRecording (now : Z) (st : recorder) : recorder :=
  Recorder true 0 (audioBlob st) (Some recording) true now.

(** [mediaRecorder.stop()] with its [onstop] handler, which sets the blob.
    Called on a recorder that is not recording it changes nothing. *)
Definition mediaRecorder_stop (st : recorder) : recorder :=
  match mediaRecorderRef st with
  | Some recording =>
      Recorder (isRecording st) (recordingTime st) true (Some inactive)
               (timerRef st) (startTimeRef st)
  | _ => st
  end.

(** [stopRecording], where [seen] is the value of [isRecording] in the render
    that created the handler. *)
Definition stopRecording (seen : bool) (st : recorder) : recorder :=
  match mediaRecorderRef st with
  | Some _ =>
      if seen then
        let st' := mediaRecorder_stop st in
        Recorder false (recordingTime st') (audioBlob st') (mediaRecorderRef st')
                 false (startTimeRef st')
      else st
  | None => st
  end.

(** [cancelRecording] *)
Definition cancelRecording (seen : bool) (st : recorder) : recorder :=
  let st' := stopRecording seen st in
  Recorder (isRecording st') 0 false (mediaRecorderRef st') (timerRef st')
           (startTimeRef st').

(** The cleanup of the effect that depends on [isRecording]. *)
Definition effect_cleanup (seen : bool) (st : recorder) : recorder :=
  let st' := Recorder (isRecording st) (recordingTime st) (audioBlob st)
                      (mediaRecorderRef st) false (startTimeRef st) in
  match mediaRecorderRef st' with
  | Some _ => if seen then mediaRecorder_stop st' else st'
  | None => st'
  end.

(** What can happen to a mounted recorder. *)
Inductive event : Set :=
  | Start (now : Z)
  | Tick (now : Z)
  | ClickStop
  | ClickCancel
  | Cleanup (seen : bool).

(** The stop and cancel buttons belong to the current render; an interval
    that has been cleared does not fire. *)
Definition dispatch (st : recorder) (e : event) : recorder :=
  match e with
  | Start now => startRecording now st
  | Tick now => if timerRef st then updateTimer now st else st
  | ClickStop => stopRecording (isRecording st) st
  | ClickCancel => cancelRecording (isRecording st) st
  | Cleanup seen => effect_cleanup seen st
  end.

Definition session (es : list event) : recorder :=
  foldl dispatch initial_recorder es.

(** The maximum capture duration of the specification: 15 minutes. *)
Definition max_capture_ms : Z := 15 * 60 * 1000.

(** ** The message input component *)

(** State and refs of the [MessageInput] component, which records as well.
    [startedWith] is the value of [isRecording] in the render whose
    [startRecording] set the timers: the [stopRecording] that the 15-minute
    timeout calls belongs to that render. *)
Record message_input : Set := MessageInput {
  mi_isRecording : bool;
  mi_recordingTime : Z;
  mi_audioBlob : bool;
  mi_mediaRecorderRef : option recording_state;
  mi_timerRef : bool;
  mi_recordingTimeoutRef : bool;
  mi_startedWith : bool
}.

Definition initial_message_input : message_input :=
  MessageInput false 0 false None false false false.

(** [startRecording] once [getUserMedia] has resolved: the recorder is
    started, the one-second interval and the 15-minute timeout are set. *)
Definition mi_startRecording (st : message_input) : message_input :=
  MessageInput true 0 (mi_audioBlob st) (Some recording) true true (mi_isRecording st).

(** [stopRecording] of a render in which [isRecording] was [seen]. *)
Definition mi_stopRecording (seen : bool) (st : message_input) : message_input :=
  match mi_mediaRecorderRef st with
  | Some rs =>
      if seen then
        MessageInput false (mi_recordingTime st)
                     (match rs with recording => true | inactive => mi_audioBlob st end)
                     (Some inactive) false false (mi_startedWith st)
      else st
  | None => st
  end.

(** The cleanup of the effect that depends on [isRecording]: both timers are
    cleared, and the recorder is stopped if [isRecording] was seen true. *)
Definition mi_effect_cleanup (seen : bool) (st : message_input) : message_input :=
  match mi_mediaRecorderRef st with
  | Some recording =>
      if seen then
        MessageInput (mi_isRecording st) (mi_recordingTime st) true (Some inactive)
                     false false (mi_startedWith st)
      else
        MessageInput (mi_isRecording st) (mi_recordingTime st) (mi_audioBlob st)
                     (mi_mediaRecorderRef st) false false (mi_startedWith st)
  | _ =>
      MessageInput (mi_isRecording st) (mi_recordingTime st) (mi_audioBlob st)
                   (mi_mediaRecorderRef st) false false (mi_startedWith st)
  end.

Inductive mi_event : Set :=
  | MiStart
  | MiTick
  | MiTimeout
  | MiClickStop
  | MiCleanup (seen : bool).

(** The interval adds one second; the timeout calls the [stopRecording] of
    the render that started the recording; cleared timers do not fire. *)
Definition mi_dispatch (st : message_input) (e : mi_event) : message_input :=
  match e with
  | MiStart => mi_startRecording st
  | MiTick =>
      if mi_timerRef st then
        MessageInput (mi_isRecording st) (mi_recordingTime st + 1) (mi_audioBlob st)
                     (mi_mediaRecorderRef st) (mi_timerRef st)
                     (mi_recordingTimeoutRef st) (mi_startedWith st)
      else st
  | MiTimeout =>
      if mi_recordingTimeoutRef st then mi_stopRecording (mi_startedWith st) st else st
  | MiClickStop => mi_stopRecording (mi_isRecording st) st
  | MiCleanup seen => mi_effect_cleanup seen st
  end.

Definition mi_session (es : list mi_event) : message_input :=
  foldl mi_dispatch initial_message_input es.

(** ** Integrity constraints as predicates *)

(** Referential integrity of [conversation_participants.conversation_id]. *)
Definition participants_reference_conversations (db : database) : Prop :=
  map_Forall (λ k _, is_Some (conversations db !! k.1)) (conversation_participants db).

(** Referential integrity of [conversations.client_id] and [mentor_id]. *)
Definition conversations_reference_profiles (db : database) : Prop :=
  map_Forall (λ _ c, is_Some (profiles db !! c_client_id c)
                     ∧ is_Some (profiles db !! c_mentor_id c))
             (conversations db).

(** A sample database: director 1, mentor 2 under director 1, mentor 3 with
    no director, client 4 of mentor 2, client 5 of mentor 3. *)
Definition sample_profiles : gmap uuid profile :=
  <[1%positive := Profile training_director None None "Greg Bottaro"]>
  (<[2%positive := Profile mentor None (Some 1%positive) "Mentor A"]>
  (<[3%positive := Profile mentor None None "Mentor B"]>
  (<[4%positive := Profile client (Some 2%positive) None "Client A"]>
  (<[5%positive := Profile client (Some 3%positive) None "Client B"]> ∅)))).

Definition sample_db : database :=
  Database sample_profiles ∅ ∅ ∅ ∅ ∅.

(** ** Sample data and auxiliary predicates *)

(** The sample database after client 4 has opened conversation 10 with
    mentor 2, whose director is 1. *)
Definition sample_db_10 : database :=
  Database sample_profiles
           {[ 10%positive := Conversation 4 2 ]}
           (<[(10, 4)%positive := client]>
              (<[(10, 2)%positive := mentor]>
                 {[ (10, 1)%positive := training_director ]}))
           ∅ ∅ ∅.

(** Whether a text contains the path separator. *)
Fixpoint contains_slash (s : string) : bool :=
  match s with
  | EmptyString => false
  | String c s' => bool_decide (c = "/"%char) || contains_slash s'
  end.

(** A cast for the examples: the texts "10" and "11" are UUIDs. *)
Definition sample_uuid_of_text (s : string) : option uuid :=
  if bool_decide (s = "10") then Some 10%positive
  else if bool_decide (s = "11") then Some 11%positive
  else None.

(** Every stored message was sent by a member of its conversation. *)
Definition senders_are_members (db : database) : Prop :=
  map_Forall (λ _ m, is_conversation_member db (m_sender_id m) (m_conversation_id m) = true)
             (audio_messages db).

(** The sample database after client 4 has sent message 77 to conversation 10. *)
Definition sample_db_77 : database :=
  with_audio_messages {[ 77%positive := AudioMessage 10 4 "10/77.mp3" 12 ]} sample_db_10.

(** The two conditions of the folder item policy. *)
Definition owns_folder (db : database) (R folder_id : uuid) : Prop :=
  ∃ f, folders db !! folder_id = Some f ∧ f_owner_id f = R.

Definition member_of_message_conversation (db : database) (R message_id : uuid) : Prop :=
  ∃ m, audio_messages db !! message_id = Some m
       ∧ ∃ r, conversation_participants db !! (m_conversation_id m, R) = Some r.

(** Client 4 owns folder 20 and has filed message 77 in it. *)
Definition sample_db_filed : database :=
  Database sample_profiles (conversations sample_db_77)
           (conversation_participants sample_db_77) (audio_messages sample_db_77)
           {[ 20%positive := Folder 4 "Keep" ]}
           {[ (20, 77)%positive := () ]}.

(** The claim of C7 as it is written: the insert succeeds exactly when the
    requester owns the folder and is a member of the message's conversation. *)
Definition folder_item_insert_claim (db : database) (R folder_id message_id : uuid) : Prop :=
  (∃ db', insert_folder_item R folder_id message_id db = Ok db')
  ↔ owns_folder db R folder_id ∧ member_of_message_conversation db R message_id.

(** The invariant of C8 as it is written: the client reference of every
    conversation resolves to a profile of role [client], the mentor reference
    to a profile of role [mentor]. *)
Definition role_matching (db : database) : Prop :=
  map_Forall (λ _ c, p_role <$> profiles db !! c_client_id c = Some client
                     ∧ p_role <$> profiles db !! c_mentor_id c = Some mentor)
             (conversations db).

(** Conversation 10 of client 4 and mentor 2 without any membership row. *)
Definition sample_db_bare : database :=
  Database sample_profiles {[ 10%positive := Conversation 4 2 ]} ∅ ∅ ∅ ∅.

(** The events that need no user: a firing of the interval, and the cleanup
    of the effect of a render in which [isRecording] was false. *)
Definition timed (e : event) : bool :=
  match e with
  | Tick _ => true
  | Cleanup false => true
  | _ => false
  end.

(** The seconds 1 to 901 after [t0]. *)
Definition seconds_after (t0 : Z) : list event :=
  (λ k, Tick (t0 + 1000 * k)%Z) <$> seqZ 1 901.

(** A recording started at [t0] and left alone for 901 seconds, the interval
    firing once a second. *)
Definition unattended_session (t0 : Z) : list event :=
  Start t0 :: seconds_after t0.

(** The same when the render that follows the start runs the cleanup of the
    previous effect, which clears the interval. *)
Definition unattended_session_rendered (t0 : Z) : list event :=
  Start t0 :: Cleanup false :: seconds_after t0.

(** ** Profiles: the update policy *)

Definition with_profiles (ps : gmap uuid profile) (db : database) : database :=
  Database ps (conversations db) (conversation_participants db)
           (audio_messages db) (folders db) (folder_items db).

(** "Users can update their own profile": USING [id = auth.uid()], and the
    same WITH CHECK. *)
Definition profiles_update_policy (uid id : uuid) : bool :=
  bool_decide (id = uid).

(** A foreign key column of an updated row is checked when its value changes. *)
Definition reference_ok (db : database) (old new : option uuid) : bool :=
  bool_decide (new = old)
  || match new with
     | Some r => bool_decide (is_Some (profiles db !! r))
     | None => true
     end.

(** [UPDATE profiles SET ... WHERE id = id] by requester [uid], where [set]
    gives the new values of the columns other than [id].  A row that does not
    pass the policy is not updated and no error is raised. *)
Definition update_profiles (uid id : uuid) (set : profile → profile)
    (db : database) : result database :=
  match profiles db !! id with
  | Some p =>
      if profiles_update_policy uid id then
        if negb (reference_ok db (p_mentor_id p) (p_mentor_id (set p)))
        then Err (foreign_key_violation "profiles_mentor_id_fkey")
        else if negb (reference_ok db (p_director_id p) (p_director_id (set p)))
        then Err (foreign_key_violation "profiles_director_id_fkey")
        else Ok (with_profiles (<[id := set p]> (profiles db)) db)
      else Ok db
  | None => Ok db
  end.

(** [handleSubmit] of the profile page:
    [update({ full_name: fullName }).eq('id', user.id)]. *)
Definition handleSubmit (uid : uuid) (fullName : string) (db : database) : result database :=
  update_profiles uid uid
    (λ p, Profile (p_role p) (p_mentor_id p) (p_director_id p) fullName) db.

(** ** Favorites and bookmarks *)

(** A row of [bookmarks]. *)
Record bookmark : Set := Bookmark {
  b_message_id : uuid;
  b_user_id : uuid;
  b_timestamp_sec : QArith_base.Q;
  b_label : string
}.

(** "Users can manage their own bookmarks", FOR ALL: USING and WITH CHECK are
    [user_id = auth.uid()]. *)
Definition bookmarks_policy (uid : uuid) (b : bookmark) : bool :=
  bool_decide (b_user_id b = uid).

Definition visible_bookmarks (uid : uuid) (bs : gmap uuid bookmark) : gmap uuid bookmark :=
  filter (λ kv, bookmarks_policy uid kv.2 = true) bs.

(** [INSERT INTO bookmarks ...] by requester [uid]. *)
Definition insert_bookmark (uid new_id : uuid) (NEW : bookmark) (db : database)
    (bs : gmap uuid bookmark) : result (gmap uuid bookmark) :=
  if negb (bookmarks_policy uid NEW)
  then Err (rls_violation "bookmarks")
  else if bool_decide (is_Some (bs !! new_id))
  then Err (unique_violation "bookmarks_pkey")
  else if bool_decide (audio_messages db !! b_message_id NEW = None)
  then Err (foreign_key_violation "bookmarks_message_id_fkey")
  else if bool_decide (profiles db !! b_user_id NEW = None)
  then Err (foreign_key_violation "bookmarks_user_id_fkey")
  else Ok (<[new_id := NEW]> bs).

(** [UPDATE bookmarks SET ... WHERE id = id] by requester [uid]: the stored
    row has to pass USING, the new row WITH CHECK. *)
Definition update_bookmark (uid id : uuid) (set : bookmark → bookmark) (db : database)
    (bs : gmap uuid bookmark) : result (gmap uuid bookmark) :=
  match bs !! id with
  | Some b =>
      if bookmarks_policy uid b then
        if negb (bookmarks_policy uid (set b))
        then Err (rls_violation "bookmarks")
        else if bool_decide (audio_messages db !! b_message_id (set b) = None)
        then Err (foreign_key_violation "bookmarks_message_id_fkey")
        else if bool_decide (profiles db !! b_user_id (set b) = None)
        then Err (foreign_key_violation "bookmarks_user_id_fkey")
        else Ok (<[id := set b]> bs)
      else Ok bs
  | None => Ok bs
  end.

(** [deleteBookmark] of the player: [delete().eq('id', bookmarkId)]. *)
Definition delete_bookmark (uid id : uuid) (bs : gmap uuid bookmark) : gmap uuid bookmark :=
  match bs !! id with
  | Some b => if bookmarks_policy uid b then delete id bs else bs
  | None => bs
  end.

(** "Users can manage their own favorites", FOR ALL, on the [user_id] of the
    key [(user_id, message_id)]. *)
Definition favorites_policy (uid : uuid) (k : uuid * uuid) : bool :=
  bool_decide (k.1 = uid).

Definition visible_favorites (uid : uuid) (fs : gmap (uuid * uuid) unit) : gmap (uuid * uuid) unit :=
  filter (λ kv, favorites_policy uid kv.1 = true) fs.

(** [INSERT INTO favorites (user_id, message_id) VALUES ...]. *)
Definition insert_favorite (uid user_id message_id : uuid) (db : database)
    (fs : gmap (uuid * uuid) unit) : result (gmap (uuid * uuid) unit) :=
  if negb (favorites_policy uid (user_id, message_id))
  then Err (rls_violation "favorites")
  else if bool_decide (is_Some (fs !! (user_id, message_id)))
  then Err (unique_violation "favorites_pkey")
  else if bool_decide (profiles db !! user_id = None)
  then Err (foreign_key_violation "favorites_user_id_fkey")
  else if bool_decide (audio_messages db !! message_id = None)
  then Err (foreign_key_violation "favorites_message_id_fkey")
  else Ok (<[(user_id, message_id) := ()]> fs).

(** [DELETE FROM favorites WHERE user_id = ... AND message_id = ...]. *)
Definition delete_favorite (uid user_id message_id : uuid)
    (fs : gmap (uuid * uuid) unit) : gmap (uuid * uuid) unit :=
  if favorites_policy uid (user_id, message_id)
  then delete (user_id, message_id) fs else fs.

(** [toggleFavorite] of the player, for the signed-in user [uid] and the
    component state [favorite].  The outcome of the request is not looked at:
    the flag is flipped whether the statement went through or not. *)
Definition toggleFavorite (uid messageId : uuid) (favorite : bool) (db : database)
    (fs : gmap (uuid * uuid) unit) : gmap (uuid * uuid) unit * bool :=
  if favorite
  then (delete_favorite uid uid messageId fs, negb favorite)
  else (match insert_favorite uid uid messageId db fs with
        | Ok fs' => fs'
        | Err _ => fs
        end, negb favorite).

(** ** Folder items: reading and deleting *)

(** "Users can manage items in their folders", USING:
    [folder_id IN (SELECT id FROM folders WHERE owner_id = auth.uid())]. *)
Definition folder_items_policy (db : database) (uid folder_id : uuid) : bool :=
  bool_decide (is_Some (visible_folders db uid !! folder_id)).

(** [DELETE FROM folder_items WHERE folder_id = ... AND message_id = ...]. *)
Definition delete_folder_item (uid folder_id message_id : uuid) (db : database) : database :=
  if folder_items_policy db uid folder_id
  then with_folder_items (delete (folder_id, message_id) (folder_items db)) db
  else db.

(** Referential integrity of [folder_items]. *)
Definition folder_items_reference (db : database) : Prop :=
  map_Forall (λ k _, is_Some (folders db !! k.1) ∧ is_Some (audio_messages db !! k.2))
             (folder_items db).

(** Referential integrity of [conversation_participants.user_id]. *)
Definition participants_reference_profiles (db : database) : Prop :=
  map_Forall (λ k _, is_Some (profiles db !! k.2)) (conversation_participants db).

(** Referential integrity of [profiles.director_id]. *)
Definition directors_resolve (db : database) : Prop :=
  map_Forall (λ _ p, ∀ d, p_director_id p = Some d → is_Some (profiles db !! d))
             (profiles db).

(** ** Uploading and sending a voice message *)

(** The rows of [storage.objects], keyed by bucket and name. *)
Abbreviation objects := (gmap (string * string) storage_object) (only parsing).

(** "Only conversation members can upload audio files", WITH CHECK:
    [bucket_id = 'voices' AND
     is_conversation_member((storage.foldername(name))[1]::uuid)
     AND auth.uid() = owner]. *)
Definition storage_objects_insert_policy (uuid_of_text : string → option uuid)
    (db : database) (uid : uuid) (o : storage_object) : bool :=
  bool_decide (o_bucket_id o = "voices")
  && match head (foldername (o_name o)) ≫= uuid_of_text with
     | Some conv_uuid => is_conversation_member db uid conv_uuid
     | None => false
     end
  && bool_decide (o_owner o = Some uid).

(** [storage.from(bucket).upload(path, blob)] by requester [uid]: a row with
    the requester as owner is inserted; an existing name is not replaced. *)
Definition upload (uuid_of_text : string → option uuid) (uid : uuid)
    (bucket path : string) (db : database) (objs : objects) : result objects :=
  if negb (storage_objects_insert_policy uuid_of_text db uid
             (StorageObject bucket path (Some uid)))
  then Err (rls_violation "objects")
  else if bool_decide (is_Some (objs !! (bucket, path)))
  then Err (unique_violation "bucketid_objname")
  else Ok (<[(bucket, path) := StorageObject bucket path (Some uid)]> objs).

(** The path [`${conversationId}/${messageId}.mp3`]; [text_of_uuid] is the
    text of a UUID. *)
Definition filePath (text_of_uuid : uuid → string) (conversationId messageId : uuid) : string :=
  text_of_uuid conversationId +:+ "/" +:+ text_of_uuid messageId +:+ ".mp3".

(** [sendVoiceMessage] of the recorder for the signed-in user [uid], with
    [messageId] the fresh [crypto.randomUUID()]: nothing without a blob; the
    upload; then the message row, unless the upload failed; then the blob and
    the time are cleared, unless the insert failed. *)
Definition sendVoiceMessage (uuid_of_text : string → option uuid)
    (text_of_uuid : uuid → string) (uid conversationId messageId : uuid)
    (s : database * objects * recorder) : database * objects * recorder :=
  let '(db, objs, st) := s in
  if negb (audioBlob st) then s
  else
    match upload uuid_of_text uid "voices" (filePath text_of_uuid conversationId messageId)
                 db objs with
    | Err _ => s
    | Ok objs' =>
        match insert_audio_message uid messageId
                (AudioMessage conversationId uid
                   (filePath text_of_uuid conversationId messageId) (recordingTime st))
                db with
        | Err _ => (db, objs', st)
        | Ok db' =>
            (db', objs',
             Recorder (isRecording st) 0 false (mediaRecorderRef st)
                      (timerRef st) (startTimeRef st))
        end
    end.

(** The text of the sample UUIDs. *)
Definition sample_text_of_uuid (u : uuid) : string :=
  if bool_decide (u = 10%positive) then "10"
  else if bool_decide (u = 11%positive) then "11"
  else "77".

(** Conversation 11 of client 5 and mentor 6, whose director 7 is not the
    director the backfill names. *)
Definition sample_db_other_director : database :=
  Database (<[6%positive := Profile mentor None (Some 7%positive) "Mentor C"]>
              (<[7%positive := Profile training_director None None "Director B"]>
                 sample_profiles))
           {[ 11%positive := Conversation 5 6 ]} ∅ ∅ ∅ ∅.

(** ** Timers of the message input *)

(** The events of the message input that need no user. *)
Definition mi_timed (e : mi_event) : bool :=
  match e with
  | MiTick => true
  | MiTimeout => true
  | MiCleanup false => true
  | _ => false
  end.

(** * Properties *)

Example sample_create_with_director :
  (db' ← insert_conversation 4 10 (Conversation 4 2) sample_db;
   mret (map_to_list (conversation_participants db')))
  = Ok [((10, 1), training_director); ((10, 2), mentor); ((10, 4), client)]%positive.
Proof. vm_compute. reflexivity. Qed.

Example foldername_ex : foldername "abc/def/x.mp3" = ["abc"; "def"].
Proof. reflexivity. Qed.

(** ** Inversion of the statements *)

Lemma bind_Ok {A B} (f : A → result B) (r : result A) (b : B) :
  r ≫= f = Ok b → ∃ a, r = Ok a ∧ f a = Ok b.
Proof. destruct r as [a|e]; [eauto | discriminate]. Qed.

Lemma insert_participant_Ok cid u r db db' :
  insert_participant cid u r db = Ok db' →
  conversation_participants db !! (cid, u) = None
  ∧ is_Some (conversations db !! cid)
  ∧ is_Some (profiles db !! u)
  ∧ db' = with_conversation_participants
            (<[(cid, u) := r]> (conversation_participants db)) db.
Proof.
  unfold insert_participant. repeat case_bool_decide; try discriminate.
  intros [= <-]. split_and!; [| | | done].
  - by apply eq_None_not_Some.
  - by apply not_eq_None_Some.
  - by apply not_eq_None_Some.
Qed.

Lemma insert_participant_fresh cid u r db :
  conversation_participants db !! (cid, u) = None →
  is_Some (conversations db !! cid) →
  is_Some (profiles db !! u) →
  insert_participant cid u r db
  = Ok (with_conversation_participants
          (<[(cid, u) := r]> (conversation_participants db)) db).
Proof.
  intros Hk Hc Hp. unfold insert_participant.
  rewrite bool_decide_eq_false_2; [| rewrite Hk; by intros [? ?]].
  rewrite bool_decide_eq_false_2; [| by apply not_eq_None_Some].
  rewrite bool_decide_eq_false_2; [| by apply not_eq_None_Some].
  done.
Qed.

Lemma insert_participant_duplicate cid u r db :
  is_Some (conversation_participants db !! (cid, u)) →
  insert_participant cid u r db = Err (unique_violation "conversation_participants_pkey").
Proof. intros H. unfold insert_participant. by rewrite bool_decide_eq_true_2. Qed.

(** What a successful run of the trigger function has checked and written. *)
Lemma add_conversation_participants_Ok new_id NEW db db' :
  add_conversation_participants new_id NEW db = Ok db' →
  let director_id := profiles db !! c_mentor_id NEW ≫= p_director_id in
  conversation_participants db !! (new_id, c_client_id NEW) = None
  ∧ conversation_participants db !! (new_id, c_mentor_id NEW) = None
  ∧ c_client_id NEW ≠ c_mentor_id NEW
  ∧ (∀ d, director_id = Some d →
          conversation_participants db !! (new_id, d) = None
          ∧ d ≠ c_client_id NEW ∧ d ≠ c_mentor_id NEW)
  ∧ db' = with_conversation_participants
            (match director_id with
             | Some d => <[(new_id, d) := training_director]>
             | None => id
             end
               (<[(new_id, c_mentor_id NEW) := mentor]>
                  (<[(new_id, c_client_id NEW) := client]>
                     (conversation_participants db)))) db.
Proof.
  unfold add_conversation_participants. intros H.
  apply bind_Ok in H as (db1 & H1 & H).
  apply bind_Ok in H as (db2 & H2 & H).
  apply insert_participant_Ok in H1 as (Hc & _ & _ & ->).
  apply insert_participant_Ok in H2 as (Hm & _ & _ & ->).
  simpl in *.
  assert (c_client_id NEW ≠ c_mentor_id NEW) as Hne.
  { intros Heq. rewrite Heq in Hm. by rewrite lookup_insert_eq in Hm. }
  rewrite lookup_insert_ne in Hm by congruence.
  destruct (profiles db !! c_mentor_id NEW ≫= p_director_id) as [d|] eqn:Hd.
  - apply insert_participant_Ok in H as (Hd' & _ & _ & ->). simpl in *.
    assert (d ≠ c_mentor_id NEW) as Hdm.
    { intros ->. by rewrite lookup_insert_eq in Hd'. }
    rewrite lookup_insert_ne in Hd' by congruence.
    assert (d ≠ c_client_id NEW) as Hdc.
    { intros ->. by rewrite lookup_insert_eq in Hd'. }
    rewrite lookup_insert_ne in Hd' by congruence.
    split_and!; try done. by intros ? [= <-].
  - simplify_eq. split_and!; done.
Qed.

Lemma insert_conversation_Ok uid new_id NEW db db' :
  insert_conversation uid new_id NEW db = Ok db' →
  conversations_insert_policy db uid NEW = true
  ∧ conversations db !! new_id = None
  ∧ is_Some (profiles db !! c_client_id NEW)
  ∧ is_Some (profiles db !! c_mentor_id NEW)
  ∧ add_conversation_participants new_id NEW
      (with_conversations (<[new_id := NEW]> (conversations db)) db) = Ok db'.
Proof.
  unfold insert_conversation.
  destruct (conversations_insert_policy db uid NEW); [simpl | discriminate].
  repeat case_bool_decide; try discriminate. intros Htrig.
  split_and!; try done.
  - by apply eq_None_not_Some.
  - by apply not_eq_None_Some.
  - by apply not_eq_None_Some.
Qed.

(** A row that passes the policy and the constraints of [conversations]
    reaches the trigger. *)
Lemma insert_conversation_checked uid new_id NEW db :
  conversations_insert_policy db uid NEW = true →
  conversations db !! new_id = None →
  is_Some (profiles db !! c_client_id NEW) →
  is_Some (profiles db !! c_mentor_id NEW) →
  insert_conversation uid new_id NEW db
  = add_conversation_participants new_id NEW
      (with_conversations (<[new_id := NEW]> (conversations db)) db).
Proof.
  intros Hpol Hfresh Hc Hm. unfold insert_conversation. rewrite Hpol.
  rewrite (bool_decide_eq_false_2 (is_Some _)); [| rewrite Hfresh; by intros [? ?]].
  rewrite (bool_decide_eq_false_2 (profiles db !! c_client_id NEW = None));
    [| by apply not_eq_None_Some].
  rewrite (bool_decide_eq_false_2 (profiles db !! c_mentor_id NEW = None));
    [| by apply not_eq_None_Some].
  done.
Qed.

(** With referential integrity, a conversation that does not exist has no
    membership rows. *)
Lemma no_rows_without_conversation db cid u :
  participants_reference_conversations db →
  conversations db !! cid = None →
  conversation_participants db !! (cid, u) = None.
Proof.
  intros Hfk Hnone.
  destruct (conversation_participants db !! (cid, u)) as [r|] eqn:Hr; [| done].
  apply Hfk in Hr. simpl in Hr. rewrite Hnone in Hr. by destruct Hr.
Qed.

(** ** Membership right after creation *)

(** The rows the trigger function leaves for a conversation that had none. *)
Lemma trigger_rows new_id NEW db db' :
  add_conversation_participants new_id NEW db = Ok db' →
  (∀ u, conversation_participants db !! (new_id, u) = None) →
  ∀ u r,
    conversation_participants db' !! (new_id, u) = Some r
    ↔ (u = c_client_id NEW ∧ r = client)
      ∨ (u = c_mentor_id NEW ∧ r = mentor)
      ∨ (profiles db !! c_mentor_id NEW ≫= p_director_id = Some u
         ∧ r = training_director).
Proof.
  intros Htrig Hold u r.
  apply add_conversation_participants_Ok in Htrig as (_ & _ & Hcm & Hdir & ->).
  simpl in *. specialize (Hold u).
  destruct (profiles db !! c_mentor_id NEW ≫= p_director_id) as [d|] eqn:Hd.
  - destruct (Hdir d eq_refl) as (_ & Hdc & Hdm).
    destruct (decide (u = d)) as [->|Hud].
    { rewrite lookup_insert_eq. split.
      - intros [= <-]. auto.
      - intros [[? _]|[[? _]|[_ ->]]]; done. }
    rewrite lookup_insert_ne by congruence.
    destruct (decide (u = c_mentor_id NEW)) as [->|Hum].
    { rewrite lookup_insert_eq. split.
      - intros [= <-]. auto.
      - intros [[? _]|[[_ ->]|[[= ?] _]]]; done. }
    rewrite lookup_insert_ne by congruence.
    destruct (decide (u = c_client_id NEW)) as [->|Huc].
    { rewrite lookup_insert_eq. split.
      - intros [= <-]. auto.
      - intros [[_ ->]|[[? _]|[[= ?] _]]]; done. }
    rewrite lookup_insert_ne by congruence. rewrite Hold. split; [done |].
    intros [[? _]|[[? _]|[[= ?] _]]]; done.
  - simpl.
    destruct (decide (u = c_mentor_id NEW)) as [->|Hum].
    { rewrite lookup_insert_eq. split.
      - intros [= <-]. auto.
      - intros [[? _]|[[_ ->]|[? _]]]; done. }
    rewrite lookup_insert_ne by congruence.
    destruct (decide (u = c_client_id NEW)) as [->|Huc].
    { rewrite lookup_insert_eq. split.
      - intros [= <-]. auto.
      - intros [[_ ->]|[[? _]|[? _]]]; done. }
    rewrite lookup_insert_ne by congruence. rewrite Hold. split; [done |].
    intros [[? _]|[[? _]|[? _]]]; done.
Qed.

(** C1.  After a conversation has been created, its rows in
    [conversation_participants] are exactly: its client with role [client],
    its mentor with role [mentor], and, if and only if the mentor's
    [director_id] is not null, that director with role [training_director]. *)
Theorem materialized_rows_after_creation uid new_id NEW db db' :
  participants_reference_conversations db →
  insert_conversation uid new_id NEW db = Ok db' →
  ∀ u r,
    conversation_participants db' !! (new_id, u) = Some r
    ↔ (u = c_client_id NEW ∧ r = client)
      ∨ (u = c_mentor_id NEW ∧ r = mentor)
      ∨ (profiles db !! c_mentor_id NEW ≫= p_director_id = Some u
         ∧ r = training_director).
Proof.
  intros Hfk Hins.
  apply insert_conversation_Ok in Hins as (_ & Hfresh & _ & _ & Htrig).
  apply (trigger_rows new_id NEW
           (with_conversations (<[new_id := NEW]> (conversations db)) db) db' Htrig).
  intros u. simpl. by apply no_rows_without_conversation.
Qed.

Example sample_db_10_created :
  insert_conversation 4 10 (Conversation 4 2) sample_db = Ok sample_db_10.
Proof. vm_compute. reflexivity. Qed.

Lemma sample_db_10_integrity : participants_reference_conversations sample_db_10.
Proof.
  unfold participants_reference_conversations.
  apply (bool_decide_unpack _). vm_compute. exact I.
Defined.

Lemma materialized_rows_after_creation_witness :
  participants_reference_conversations sample_db_10
  ∧ insert_conversation 5 11 (Conversation 5 3) sample_db_10
    = Ok (commit sample_db_10 (insert_conversation 5 11 (Conversation 5 3) sample_db_10))
  ∧ ∀ u r,
      conversation_participants
        (commit sample_db_10 (insert_conversation 5 11 (Conversation 5 3) sample_db_10))
        !! (11%positive, u) = Some r
      ↔ (u = 5%positive ∧ r = client)
        ∨ (u = 3%positive ∧ r = mentor)
        ∨ (profiles sample_db_10 !! 3%positive ≫= p_director_id = Some u
           ∧ r = training_director).
Proof.
  split; [exact sample_db_10_integrity |].
  split; [vm_compute; reflexivity |].
  apply (materialized_rows_after_creation 5 11 (Conversation 5 3) sample_db_10).
  - exact sample_db_10_integrity.
  - vm_compute. reflexivity.
Defined.

(** C2.  At the moment a conversation is created, the hierarchy predicate
    [isMember] and the materialized membership agree for every principal:
    [isMember] holds exactly when [is_conversation_member] finds a row. *)
Theorem isMember_agrees_with_materialized uid new_id NEW db db' :
  participants_reference_conversations db →
  insert_conversation uid new_id NEW db = Ok db' →
  conversations db' !! new_id = Some NEW
  ∧ ∀ principal,
      isMember db' principal NEW
      ↔ is_conversation_member db' principal new_id = true.
Proof.
  intros Hfk Hins.
  apply insert_conversation_Ok in Hins as (_ & Hfresh & _ & _ & Htrig).
  pose proof (trigger_rows new_id NEW _ db' Htrig) as Hrows. simpl in Hrows.
  specialize (Hrows (λ u, no_rows_without_conversation db new_id u Hfk Hfresh)).
  apply add_conversation_participants_Ok in Htrig as (_ & _ & _ & _ & Hdb').
  assert (profiles db' = profiles db) as Hprof by (by subst db').
  assert (conversations db' = <[new_id := NEW]> (conversations db)) as Hconv
    by (by subst db').
  clear Hdb'. split.
  { rewrite Hconv. apply lookup_insert_eq. }
  intros principal. unfold isMember, is_conversation_member.
  rewrite Hprof, bool_decide_eq_true. split.
  - intros [->|[->|Hd]].
    + exists client. apply Hrows. auto.
    + exists mentor. apply Hrows. auto.
    + exists training_director. apply Hrows. auto.
  - intros [r Hr]. apply Hrows in Hr as [[-> _]|[[-> _]|[Hd _]]]; auto.
Qed.

Lemma isMember_agrees_with_materialized_witness :
  participants_reference_conversations sample_db
  ∧ insert_conversation 4 10 (Conversation 4 2) sample_db = Ok sample_db_10
  ∧ conversations sample_db_10 !! 10%positive = Some (Conversation 4 2)
  ∧ ∀ principal,
      isMember sample_db_10 principal (Conversation 4 2)
      ↔ is_conversation_member sample_db_10 principal 10 = true.
Proof.
  assert (participants_reference_conversations sample_db) as Hfk.
  { unfold participants_reference_conversations.
    apply (bool_decide_unpack _). vm_compute. exact I. }
  split; [exact Hfk |].
  split; [vm_compute; reflexivity |].
  apply (isMember_agrees_with_materialized 4 10 (Conversation 4 2) sample_db).
  - exact Hfk.
  - vm_compute. reflexivity.
Defined.

(** ** A principal in both positions *)

(** C10.  A conversation whose [client_id] equals its [mentor_id] cannot be
    created: the statement fails and the database is left as it was.  When
    the policy, the primary key and the foreign keys of [conversations] let
    the row through, it is the trigger's second insert that fails, on the
    primary key of [conversation_participants], after the first succeeded. *)
Theorem same_principal_creation_fails uid new_id x db :
  (∃ e, insert_conversation uid new_id (Conversation x x) db = Err e)
  ∧ commit db (insert_conversation uid new_id (Conversation x x) db) = db
  ∧ (participants_reference_conversations db →
     conversations_insert_policy db uid (Conversation x x) = true →
     conversations db !! new_id = None →
     is_Some (profiles db !! x) →
     ∃ db1,
       insert_participant new_id x client
         (with_conversations (<[new_id := Conversation x x]> (conversations db)) db)
       = Ok db1
       ∧ insert_participant new_id x mentor db1
         = Err (unique_violation "conversation_participants_pkey")
       ∧ insert_conversation uid new_id (Conversation x x) db
         = Err (unique_violation "conversation_participants_pkey")).
Proof.
  assert (∃ e, insert_conversation uid new_id (Conversation x x) db = Err e) as He.
  { destruct (insert_conversation uid new_id (Conversation x x) db) as [db'|e] eqn:H;
      [| eauto].
    apply insert_conversation_Ok in H as (_ & _ & _ & _ & H).
    apply add_conversation_participants_Ok in H as (_ & _ & Hne & _). done. }
  split; [exact He |]. split.
  { destruct He as [e ->]. done. }
  intros Hfk Hpol Hfresh Hx.
  set (db0 := with_conversations (<[new_id := Conversation x x]> (conversations db)) db).
  assert (insert_participant new_id x client db0
          = Ok (with_conversation_participants
                  (<[(new_id, x) := client]> (conversation_participants db0)) db0))
    as H1.
  { apply insert_participant_fresh.
    - simpl. by apply no_rows_without_conversation.
    - simpl. rewrite lookup_insert_eq. eauto.
    - done. }
  assert (insert_participant new_id x mentor
            (with_conversation_participants
               (<[(new_id, x) := client]> (conversation_participants db0)) db0)
          = Err (unique_violation "conversation_participants_pkey")) as H2.
  { apply insert_participant_duplicate. simpl. rewrite lookup_insert_eq. eauto. }
  eexists. split; [exact H1 |]. split; [exact H2 |].
  rewrite insert_conversation_checked by done.
  unfold add_conversation_participants. cbn [c_client_id c_mentor_id]. fold db0.
  rewrite H1. cbn [mbind result_bind]. rewrite H2. done.
Qed.

Lemma same_principal_creation_fails_witness :
  participants_reference_conversations sample_db_10
  ∧ conversations_insert_policy sample_db_10 2 (Conversation 2 2) = true
  ∧ conversations sample_db_10 !! 12%positive = None
  ∧ is_Some (profiles sample_db_10 !! 2%positive)
  ∧ insert_conversation 2 12 (Conversation 2 2) sample_db_10
    = Err (unique_violation "conversation_participants_pkey").
Proof.
  split; [exact sample_db_10_integrity |].
  split; [vm_compute; reflexivity |].
  split; [vm_compute; reflexivity |].
  split; [vm_compute; eauto |].
  destruct (same_principal_creation_fails 2 12 2 sample_db_10) as (_ & _ & H).
  destruct H as (db1 & _ & _ & H).
  - exact sample_db_10_integrity.
  - vm_compute. reflexivity.
  - vm_compute. reflexivity.
  - vm_compute. eauto.
  - exact H.
Defined.

(** ** Reading *)

Lemma visible_participants_own db uid conv_id :
  visible_participants db uid !! (conv_id, uid)
  = conversation_participants db !! (conv_id, uid).
Proof.
  unfold visible_participants.
  destruct (conversation_participants db !! (conv_id, uid)) as [r|] eqn:Hr.
  - apply map_lookup_filter_Some. split; [done |]. simpl.
    unfold is_conversation_member. apply bool_decide_eq_true. rewrite Hr. eauto.
  - apply map_lookup_filter_None. by left.
Qed.

Lemma is_conversation_member_true db uid conv_uuid :
  is_conversation_member db uid conv_uuid = true
  ↔ ∃ r, conversation_participants db !! (conv_uuid, uid) = Some r.
Proof. unfold is_conversation_member. by rewrite bool_decide_eq_true. Qed.

Lemma is_conversation_member_false db uid conv_uuid :
  is_conversation_member db uid conv_uuid = false
  ↔ conversation_participants db !! (conv_uuid, uid) = None.
Proof.
  unfold is_conversation_member. rewrite bool_decide_eq_false.
  by rewrite eq_None_not_Some.
Qed.

Lemma split_slash_nonempty s : split_slash s ≠ [].
Proof.
  destruct s as [|c s]; simpl; [done |].
  case_bool_decide; [done |]. by destruct (split_slash s).
Qed.

Lemma split_slash_prefix seg rest :
  contains_slash seg = false →
  split_slash (seg +:+ "/" +:+ rest) = seg :: split_slash rest.
Proof.
  induction seg as [|c seg IH]; simpl; [done |].
  intros [Hc Hseg]%orb_false_elim. rewrite Hc, (IH Hseg). done.
Qed.

(** The first folder of [seg/rest] is [seg]. *)
Lemma foldername_prefix seg rest :
  contains_slash seg = false →
  head (foldername (seg +:+ "/" +:+ rest)) = Some seg.
Proof.
  intros Hseg. unfold foldername, string_to_array.
  rewrite bool_decide_eq_false_2.
  - rewrite (split_slash_prefix _ _ Hseg).
    pose proof (split_slash_nonempty rest).
    simpl. by destruct (split_slash rest).
  - by destruct seg.
Qed.

(** C3.  A requester may select a conversation exactly when a
    [conversation_participants] row links the requester to it.  A requester
    without such a row can select no audio message of the conversation and
    no stored object whose path starts with the conversation's identifier. *)
Theorem reads_require_membership (uuid_of_text : string → option uuid)
    db (R C : uuid) :
  (conversations_select_policy db R C = true
   ↔ ∃ r, conversation_participants db !! (C, R) = Some r)
  ∧ (conversation_participants db !! (C, R) = None →
     conversations_select_policy db R C = false
     ∧ (∀ m, m_conversation_id m = C →
             audio_messages_select_policy db R m = false
             ∧ ∀ id, visible_audio_messages db R !! id ≠ Some m)
     ∧ (∀ o seg rest,
          uuid_of_text seg = Some C →
          contains_slash seg = false →
          o_name o = seg +:+ "/" +:+ rest →
          storage_objects_select_policy uuid_of_text db R o = false)).
Proof.
  assert (conversations_select_policy db R C = true
          ↔ ∃ r, conversation_participants db !! (C, R) = Some r) as Hconv.
  { unfold conversations_select_policy.
    by rewrite bool_decide_eq_true, visible_participants_own. }
  split; [exact Hconv |]. intros Hnone.
  pose proof (proj2 (is_conversation_member_false db R C) Hnone) as Hmem.
  split_and!.
  - apply not_true_is_false. rewrite Hconv, Hnone. by intros [? ?].
  - intros m <-. split; [exact Hmem |].
    intros id [_ Hvis]%map_lookup_filter_Some. simpl in Hvis.
    unfold audio_messages_select_policy in Hvis. congruence.
  - intros o seg rest Hcast Hseg Hname. unfold storage_objects_select_policy.
    rewrite Hname, (foldername_prefix _ _ Hseg). simpl. rewrite Hcast, Hmem.
    apply andb_false_r.
Qed.

Lemma reads_require_membership_witness :
  conversation_participants sample_db_10 !! (10, 3)%positive = None
  ∧ conversations_select_policy sample_db_10 3 10 = false
  ∧ storage_objects_select_policy sample_uuid_of_text sample_db_10 3
      (StorageObject "voices" "10/77.mp3" (Some 4%positive)) = false
  ∧ storage_objects_select_policy sample_uuid_of_text sample_db_10 1
      (StorageObject "voices" "10/77.mp3" (Some 4%positive)) = true.
Proof.
  assert (conversation_participants sample_db_10 !! (10, 3)%positive = None) as Hnone
    by (vm_compute; reflexivity).
  destruct (reads_require_membership sample_uuid_of_text sample_db_10 3 10)
    as (_ & H).
  destruct (H Hnone) as (Hc & _ & Ho).
  split; [exact Hnone |]. split; [exact Hc |]. split.
  - apply (Ho _ "10" "77.mp3"); vm_compute; reflexivity.
  - vm_compute. reflexivity.
Defined.

(** ** Writing and deleting messages *)

(** C5.  The insert policy of [audio_messages] passes exactly when the
    requester has a membership row for the message's conversation and is the
    message's sender.  An insert that does not pass is refused and stores
    nothing; this is so for every requester without a membership row. *)
Theorem message_insert_permission db (R new_id : uuid) (NEW : audio_message) :
  (audio_messages_insert_policy db R NEW = true
   ↔ (∃ r, conversation_participants db !! (m_conversation_id NEW, R) = Some r)
     ∧ m_sender_id NEW = R)
  ∧ (audio_messages_insert_policy db R NEW = false →
     insert_audio_message R new_id NEW db = Err (rls_violation "audio_messages")
     ∧ commit db (insert_audio_message R new_id NEW db) = db)
  ∧ (conversation_participants db !! (m_conversation_id NEW, R) = None →
     insert_audio_message R new_id NEW db = Err (rls_violation "audio_messages")
     ∧ audio_messages (commit db (insert_audio_message R new_id NEW db))
       = audio_messages db)
  ∧ (audio_messages_insert_policy db R NEW = true →
     insert_audio_message R new_id NEW db ≠ Err (rls_violation "audio_messages")).
Proof.
  assert (audio_messages_insert_policy db R NEW = false →
          insert_audio_message R new_id NEW db = Err (rls_violation "audio_messages"))
    as Hdeny.
  { intros Hpol. unfold insert_audio_message. by rewrite Hpol. }
  split_and!.
  - unfold audio_messages_insert_policy.
    by rewrite andb_true_iff, is_conversation_member_true, bool_decide_eq_true.
  - intros Hpol. by rewrite (Hdeny Hpol).
  - intros Hnone. rewrite Hdeny; [done |].
    unfold audio_messages_insert_policy.
    by rewrite (proj2 (is_conversation_member_false _ _ _) Hnone).
  - intros Hpol. unfold insert_audio_message. rewrite Hpol. simpl.
    repeat case_bool_decide; discriminate.
Qed.

Lemma message_insert_permission_witness :
  conversation_participants sample_db_10 !! (10, 5)%positive = None
  ∧ insert_audio_message 5 77 (AudioMessage 10 5 "10/77.mp3" 12) sample_db_10
    = Err (rls_violation "audio_messages")
  ∧ audio_messages_insert_policy sample_db_10 4 (AudioMessage 10 4 "10/77.mp3" 12) = true
  ∧ insert_audio_message 4 77 (AudioMessage 10 4 "10/77.mp3" 12) sample_db_10
    ≠ Err (rls_violation "audio_messages").
Proof.
  assert (conversation_participants sample_db_10 !! (10, 5)%positive = None) as Hnone
    by (vm_compute; reflexivity).
  assert (audio_messages_insert_policy sample_db_10 4
            (AudioMessage 10 4 "10/77.mp3" 12) = true) as Hpol
    by (vm_compute; reflexivity).
  split; [exact Hnone |]. split.
  - apply (message_insert_permission sample_db_10 5 77
             (AudioMessage 10 5 "10/77.mp3" 12)). exact Hnone.
  - split; [exact Hpol |].
    apply (message_insert_permission sample_db_10 4 77
             (AudioMessage 10 4 "10/77.mp3" 12)). exact Hpol.
Defined.

(** C6.  The delete policy of [audio_messages] passes exactly for the
    message's sender.  A delete by anyone else, a training director of the
    conversation included, leaves the database as it is; a delete by the
    sender removes the message. *)
Theorem only_sender_deletes db (P msg_id : uuid) (M : audio_message) :
  audio_messages db !! msg_id = Some M →
  (audio_messages_delete_policy P M = true ↔ P = m_sender_id M)
  ∧ (P ≠ m_sender_id M → delete_audio_message P msg_id db = db)
  ∧ (P ≠ m_sender_id M →
     conversation_participants db !! (m_conversation_id M, P) = Some training_director →
     audio_messages (delete_audio_message P msg_id db) !! msg_id = Some M)
  ∧ (senders_are_members db →
     (audio_messages (delete_audio_message P msg_id db) !! msg_id = None
      ↔ P = m_sender_id M)).
Proof.
  intros HM.
  assert (audio_messages_delete_policy P M = true ↔ P = m_sender_id M) as Hpol.
  { unfold audio_messages_delete_policy. rewrite bool_decide_eq_true. naive_solver. }
  assert (P ≠ m_sender_id M → delete_audio_message P msg_id db = db) as Hdeny.
  { intros Hne. unfold delete_audio_message. rewrite HM.
    assert (audio_messages_delete_policy P M = false) as ->.
    { apply not_true_is_false. by intros Hp%Hpol. }
    by rewrite andb_false_r. }
  split_and!; [exact Hpol | exact Hdeny | |].
  - intros Hne _. by rewrite (Hdeny Hne).
  - intros Hinv. split.
    + intros Hgone. destruct (decide (P = m_sender_id M)) as [|Hne]; [done |].
      rewrite (Hdeny Hne), HM in Hgone. discriminate.
    + intros ->. unfold delete_audio_message. rewrite HM.
      unfold audio_messages_select_policy. rewrite (Hinv _ _ HM).
      rewrite (proj2 Hpol eq_refl). simpl. apply lookup_delete_eq.
Qed.

Example sample_db_77_sent :
  insert_audio_message 4 77 (AudioMessage 10 4 "10/77.mp3" 12) sample_db_10
  = Ok sample_db_77.
Proof. vm_compute. reflexivity. Qed.

Lemma only_sender_deletes_witness :
  audio_messages sample_db_77 !! 77%positive = Some (AudioMessage 10 4 "10/77.mp3" 12)
  ∧ conversation_participants sample_db_77 !! (10, 1)%positive = Some training_director
  ∧ delete_audio_message 1 77 sample_db_77 = sample_db_77
  ∧ senders_are_members sample_db_77
  ∧ audio_messages (delete_audio_message 4 77 sample_db_77) !! 77%positive = None.
Proof.
  assert (audio_messages sample_db_77 !! 77%positive
          = Some (AudioMessage 10 4 "10/77.mp3" 12)) as HM
    by (vm_compute; reflexivity).
  assert (senders_are_members sample_db_77) as Hinv.
  { unfold senders_are_members. apply (bool_decide_unpack _). vm_compute. exact I. }
  split; [exact HM |].
  split; [vm_compute; reflexivity |].
  destruct (only_sender_deletes sample_db_77 1 77 _ HM) as (_ & Hdeny & _ & _).
  destruct (only_sender_deletes sample_db_77 4 77 _ HM) as (_ & _ & _ & Hdel).
  split; [apply Hdeny; vm_compute; discriminate |].
  split; [exact Hinv |].
  apply (Hdel Hinv). vm_compute. reflexivity.
Defined.

(** ** Folder items *)

Lemma visible_folders_lookup db uid folder_id f :
  visible_folders db uid !! folder_id = Some f
  ↔ folders db !! folder_id = Some f ∧ f_owner_id f = uid.
Proof.
  unfold visible_folders. rewrite map_lookup_filter_Some. simpl.
  unfold folders_policy. by rewrite bool_decide_eq_true.
Qed.

Lemma visible_audio_messages_lookup db uid msg_id m :
  visible_audio_messages db uid !! msg_id = Some m
  ↔ audio_messages db !! msg_id = Some m
    ∧ is_conversation_member db uid (m_conversation_id m) = true.
Proof. unfold visible_audio_messages. by rewrite map_lookup_filter_Some. Qed.

Lemma folder_items_insert_policy_true db R folder_id message_id :
  folder_items_insert_policy db R folder_id message_id = true
  ↔ owns_folder db R folder_id ∧ member_of_message_conversation db R message_id.
Proof.
  unfold folder_items_insert_policy, owns_folder, member_of_message_conversation.
  rewrite andb_true_iff.
  assert (match visible_folders db R !! folder_id with
          | Some f => bool_decide (f_owner_id f = R)
          | None => false
          end = true
          ↔ ∃ f, folders db !! folder_id = Some f ∧ f_owner_id f = R) as Hown.
  { destruct (visible_folders db R !! folder_id) as [f|] eqn:Hf.
    - apply visible_folders_lookup in Hf as [Hf Ho].
      rewrite bool_decide_eq_true. naive_solver.
    - split; [done |]. intros (f & Hf' & Ho).
      assert (visible_folders db R !! folder_id = Some f) as Hv
        by (by apply visible_folders_lookup).
      congruence. }
  assert (match visible_audio_messages db R !! message_id with
          | Some m => is_conversation_member db R (m_conversation_id m)
          | None => false
          end = true
          ↔ ∃ m, audio_messages db !! message_id = Some m
                 ∧ ∃ r, conversation_participants db !! (m_conversation_id m, R) = Some r)
    as Hmem.
  { destruct (visible_audio_messages db R !! message_id) as [m|] eqn:Hm.
    - apply visible_audio_messages_lookup in Hm as [Hm Hmem].
      rewrite is_conversation_member_true. split.
      + intros Hr. exists m. done.
      + intros (m' & Hm' & Hr). by simplify_eq.
    - split; [done |]. intros (m & Hm' & Hr).
      assert (visible_audio_messages db R !! message_id = Some m) as Hv.
      { apply visible_audio_messages_lookup. split; [done |].
        by apply is_conversation_member_true. }
      congruence. }
  tauto.
Qed.

(** C7, as amended.  A folder item insert succeeds exactly when the requester
    owns the folder, has a membership row for the conversation of the
    message, and the folder does not hold the message yet.  When the owner or
    the membership condition fails, the insert is refused by the policy and
    stores nothing. *)
Theorem folder_item_insert db (R folder_id message_id : uuid) :
  ((∃ db', insert_folder_item R folder_id message_id db = Ok db')
   ↔ owns_folder db R folder_id
     ∧ member_of_message_conversation db R message_id
     ∧ folder_items db !! (folder_id, message_id) = None)
  ∧ (insert_folder_item R folder_id message_id db = Err (rls_violation "folder_items")
     ↔ ¬ (owns_folder db R folder_id ∧ member_of_message_conversation db R message_id))
  ∧ (∀ e, insert_folder_item R folder_id message_id db = Err e →
          commit db (insert_folder_item R folder_id message_id db) = db).
Proof.
  pose proof (folder_items_insert_policy_true db R folder_id message_id) as Hpol.
  unfold insert_folder_item.
  destruct (folder_items_insert_policy db R folder_id message_id) eqn:Hp; simpl.
  - destruct Hpol as [Hpol _]. destruct (Hpol eq_refl) as [Hown Hmem].
    destruct Hown as (f & Hf & Ho). destruct Hmem as (m & Hm & Hr).
    rewrite (bool_decide_eq_false_2 (folders db !! folder_id = None)) by congruence.
    rewrite (bool_decide_eq_false_2 (audio_messages db !! message_id = None))
      by congruence.
    assert (owns_folder db R folder_id) as Hown by (exists f; done).
    assert (member_of_message_conversation db R message_id) as Hmem
      by (exists m; done).
    case_bool_decide as Hdup.
    + split_and!.
      * split; [by intros [? ?] |]. intros (_ & _ & Hnone).
        rewrite Hnone in Hdup. by destruct Hdup.
      * split; [done |]. intros Hn. destruct Hn. done.
      * done.
    + split_and!.
      * split; [| eauto]. intros _. split_and!; [done | done |].
        by apply eq_None_not_Some.
      * split; [done |]. intros Hn. destruct Hn. done.
      * done.
  - assert (¬ (owns_folder db R folder_id
               ∧ member_of_message_conversation db R message_id)) as Hn.
    { intros H. apply Hpol in H. discriminate. }
    split_and!.
    + split; [by intros [? ?] |]. intros (? & ? & _). destruct Hn. done.
    + done.
    + done.
Qed.

(** Client 4 owns folder 20 and is a member of the conversation of message
    77, but the folder holds the message already: the insert raises a unique
    violation on [folder_items_pkey]. *)
Lemma folder_item_insert_counterexample :
  owns_folder sample_db_filed 4 20
  ∧ member_of_message_conversation sample_db_filed 4 77
  ∧ insert_folder_item 4 20 77 sample_db_filed = Err (unique_violation "folder_items_pkey")
  ∧ ¬ folder_item_insert_claim sample_db_filed 4 20 77.
Proof.
  assert (owns_folder sample_db_filed 4 20) as Hown.
  { eexists. split; vm_compute; reflexivity. }
  assert (member_of_message_conversation sample_db_filed 4 77) as Hmem.
  { eexists. split; [vm_compute; reflexivity |]. eexists. vm_compute. reflexivity. }
  assert (insert_folder_item 4 20 77 sample_db_filed
          = Err (unique_violation "folder_items_pkey")) as Herr
    by (vm_compute; reflexivity).
  split_and!; try done.
  intros [_ Hclaim]. destruct (Hclaim (conj Hown Hmem)) as [db' Hok].
  rewrite Herr in Hok. discriminate.
Qed.

Lemma folder_item_insert_witness :
  insert_folder_item 5 20 77 sample_db_filed = Err (rls_violation "folder_items")
  ∧ commit sample_db_filed (insert_folder_item 5 20 77 sample_db_filed) = sample_db_filed.
Proof.
  assert (insert_folder_item 5 20 77 sample_db_filed
          = Err (rls_violation "folder_items")) as Herr
    by (vm_compute; reflexivity).
  split; [exact Herr |].
  destruct (folder_item_insert sample_db_filed 5 20 77) as (_ & _ & H).
  exact (H _ Herr).
Defined.

(** ** Integrity is kept by every request *)

Lemma insert_participant_keeps_conversation_refs cid u r db db' :
  insert_participant cid u r db = Ok db' →
  participants_reference_conversations db →
  participants_reference_conversations db'.
Proof.
  intros (_ & Hc & _ & ->)%insert_participant_Ok Hfk.
  unfold participants_reference_conversations in *. simpl.
  by apply map_Forall_insert_2.
Qed.

Lemma add_conversation_participants_keeps_conversation_refs new_id NEW db db' :
  add_conversation_participants new_id NEW db = Ok db' →
  participants_reference_conversations db →
  participants_reference_conversations db'.
Proof.
  unfold add_conversation_participants. intros H Hfk.
  apply bind_Ok in H as (db1 & H1 & H).
  apply bind_Ok in H as (db2 & H2 & H).
  apply insert_participant_keeps_conversation_refs in H1; [| done].
  apply insert_participant_keeps_conversation_refs in H2; [| done].
  destruct (profiles db !! c_mentor_id NEW ≫= p_director_id).
  - by apply insert_participant_keeps_conversation_refs in H.
  - by simplify_eq.
Qed.

Lemma add_conversation_participants_frame new_id NEW db db' :
  add_conversation_participants new_id NEW db = Ok db' →
  ∃ ps, db' = with_conversation_participants ps db
        ∧ conversation_participants db ⊆ ps.
Proof.
  intros (Hc & Hm & Hne & Hd & ->)%add_conversation_participants_Ok.
  eexists. split; [done |].
  etrans; [apply (insert_subseteq _ (new_id, c_client_id NEW) client Hc) |].
  etrans; [apply (insert_subseteq _ (new_id, c_mentor_id NEW) mentor) |].
  { rewrite lookup_insert_ne; [done |]. intros [= ?]. done. }
  destruct (profiles db !! c_mentor_id NEW ≫= p_director_id) as [d|]; [| done].
  destruct (Hd d eq_refl) as (Hnone & ? & ?).
  apply insert_subseteq. rewrite !lookup_insert_ne by congruence. done.
Qed.

Lemma is_conversation_member_mono db ps uid conv_uuid :
  conversation_participants db ⊆ ps →
  is_conversation_member db uid conv_uuid = true →
  is_conversation_member (with_conversation_participants ps db) uid conv_uuid = true.
Proof.
  intros Hsub. rewrite !is_conversation_member_true. simpl. intros [r Hr].
  exists r. by eapply lookup_weaken.
Qed.

Lemma insert_audio_message_Ok uid new_id NEW db db' :
  insert_audio_message uid new_id NEW db = Ok db' →
  audio_messages_insert_policy db uid NEW = true
  ∧ db' = with_audio_messages (<[new_id := NEW]> (audio_messages db)) db.
Proof.
  unfold insert_audio_message.
  destruct (audio_messages_insert_policy db uid NEW); [simpl | discriminate].
  repeat case_bool_decide; try discriminate. by intros [= <-].
Qed.

Lemma insert_folder_item_Ok uid folder_id message_id db db' :
  insert_folder_item uid folder_id message_id db = Ok db' →
  db' = with_folder_items (<[(folder_id, message_id) := ()]> (folder_items db)) db.
Proof.
  unfold insert_folder_item.
  destruct (folder_items_insert_policy db uid folder_id message_id);
    [simpl | discriminate].
  repeat case_bool_decide; try discriminate. by intros [= <-].
Qed.

(** The tables a delete leaves alone. *)
Lemma delete_audio_message_frame uid msg_id db :
  profiles (delete_audio_message uid msg_id db) = profiles db
  ∧ conversations (delete_audio_message uid msg_id db) = conversations db
  ∧ conversation_participants (delete_audio_message uid msg_id db)
    = conversation_participants db
  ∧ audio_messages (delete_audio_message uid msg_id db) ⊆ audio_messages db.
Proof.
  unfold delete_audio_message.
  destruct (audio_messages db !! msg_id) as [m|]; [| done].
  destruct (audio_messages_select_policy db uid m && audio_messages_delete_policy uid m);
    [| done].
  simpl. split_and!; try done. apply delete_subseteq.
Qed.

Section Integrity.
Variable db : database.
Variable ur : uuid * request.

Lemma step_keeps_conversation_refs :
  participants_reference_conversations db →
  participants_reference_conversations (step db ur).
Proof.
  intros Hfk. unfold step. destruct ur as [uid [new_id NEW|new_id NEW|msg_id|fid mid]];
    simpl.
  - destruct (insert_conversation uid new_id NEW db) as [db'|e] eqn:H; [| done].
    apply insert_conversation_Ok in H as (_ & _ & _ & _ & H). simpl.
    eapply add_conversation_participants_keeps_conversation_refs; [done |].
    unfold participants_reference_conversations in *. simpl.
    eapply map_Forall_impl; [done |]. simpl. intros k _ [c Hc].
    destruct (decide (new_id = k.1)) as [->|Hne].
    + rewrite lookup_insert_eq. eauto.
    + rewrite lookup_insert_ne by done. eauto.
  - destruct (insert_audio_message uid new_id NEW db) as [db'|e] eqn:H; [| done].
    apply insert_audio_message_Ok in H as (_ & ->). done.
  - destruct (delete_audio_message_frame uid msg_id db) as (_ & Hc & Hp & _).
    unfold participants_reference_conversations. by rewrite Hc, Hp.
  - destruct (insert_folder_item uid fid mid db) as [db'|e] eqn:H; [| done].
    apply insert_folder_item_Ok in H as ->. done.
Qed.

Lemma step_keeps_profile_refs :
  conversations_reference_profiles db →
  conversations_reference_profiles (step db ur).
Proof.
  intros Hfk. unfold step. destruct ur as [uid [new_id NEW|new_id NEW|msg_id|fid mid]];
    simpl.
  - destruct (insert_conversation uid new_id NEW db) as [db'|e] eqn:H; [| done].
    apply insert_conversation_Ok in H as (_ & _ & Hc & Hm & H). simpl.
    apply add_conversation_participants_frame in H as (ps & -> & _).
    unfold conversations_reference_profiles in *. simpl.
    by apply map_Forall_insert_2.
  - destruct (insert_audio_message uid new_id NEW db) as [db'|e] eqn:H; [| done].
    apply insert_audio_message_Ok in H as (_ & ->). done.
  - destruct (delete_audio_message_frame uid msg_id db) as (Hp & Hc & _ & _).
    unfold conversations_reference_profiles. by rewrite Hc, Hp.
  - destruct (insert_folder_item uid fid mid db) as [db'|e] eqn:H; [| done].
    apply insert_folder_item_Ok in H as ->. done.
Qed.

Lemma step_keeps_senders_members :
  senders_are_members db → senders_are_members (step db ur).
Proof.
  intros Hinv. unfold step. destruct ur as [uid [new_id NEW|new_id NEW|msg_id|fid mid]];
    simpl.
  - destruct (insert_conversation uid new_id NEW db) as [db'|e] eqn:H; [| done].
    apply insert_conversation_Ok in H as (_ & _ & _ & _ & H). simpl.
    apply add_conversation_participants_frame in H as (ps & -> & Hsub).
    unfold senders_are_members in *. simpl.
    eapply map_Forall_impl; [done |]. simpl. intros _ m Hm.
    by apply (is_conversation_member_mono
                (with_conversations (<[new_id:=NEW]> (conversations db)) db)).
  - destruct (insert_audio_message uid new_id NEW db) as [db'|e] eqn:H; [| done].
    apply insert_audio_message_Ok in H as (Hpol & ->). simpl.
    unfold senders_are_members in *. simpl.
    apply map_Forall_insert_2; [| done].
    unfold audio_messages_insert_policy in Hpol.
    apply andb_true_iff in Hpol as [Hmem Hs]. apply bool_decide_eq_true in Hs.
    by rewrite Hs.
  - destruct (delete_audio_message_frame uid msg_id db) as (_ & _ & Hp & Hsub).
    unfold senders_are_members, is_conversation_member in *. rewrite Hp.
    intros id m Hm. apply (Hinv id m). by eapply lookup_weaken.
  - destruct (insert_folder_item uid fid mid db) as [db'|e] eqn:H; [| done].
    apply insert_folder_item_Ok in H as ->. done.
Qed.
End Integrity.

(** ** Roles of the two parties *)

(** Mentor 2 opens a conversation with client 4 the way the conversation page
    does, with [client_id] the requester and [mentor_id] the contact.  The
    policy lets the row through ([client_id = auth.uid()]) and it is stored
    with a mentor as client and a client as mentor. *)
Lemma role_matching_counterexample :
  role_matching sample_db
  ∧ p_role <$> profiles sample_db !! 2%positive = Some mentor
  ∧ p_role <$> profiles sample_db !! 4%positive = Some client
  ∧ ∃ db', insert_conversation 2 10 (Conversation 2 4) sample_db = Ok db'
           ∧ conversations db' !! 10%positive = Some (Conversation 2 4)
           ∧ ¬ role_matching db'.
Proof.
  split; [apply map_Forall_empty |].
  split; [vm_compute; reflexivity |].
  split; [vm_compute; reflexivity |].
  eexists. split; [vm_compute; reflexivity |].
  split; [vm_compute; reflexivity |].
  intros H. specialize (H 10%positive (Conversation 2 4)).
  destruct H as [H _]; [vm_compute; reflexivity |].
  vm_compute in H. discriminate.
Qed.

(** C8, as amended.  The client reference and the mentor reference of every
    stored conversation resolve to stored profiles, whatever their roles, and
    no sequence of requests stores a conversation for which they do not. *)
Theorem conversation_references_resolve db (rs : list (uuid * request)) :
  conversations_reference_profiles db →
  ∀ id c, conversations (run db rs) !! id = Some c →
          is_Some (profiles (run db rs) !! c_client_id c)
          ∧ is_Some (profiles (run db rs) !! c_mentor_id c).
Proof.
  intros Hfk. assert (conversations_reference_profiles (run db rs)) as H.
  { unfold run. revert db Hfk.
    induction rs as [|ur rs IH]; intros db Hfk; simpl; [done |].
    apply IH. by apply step_keeps_profile_refs. }
  intros id c Hc. exact (H id c Hc).
Qed.

Lemma conversation_references_resolve_witness :
  conversations_reference_profiles sample_db
  ∧ conversations
      (run sample_db [(2, InsertConversation 10 (Conversation 2 4));
                      (4, InsertConversation 11 (Conversation 4 9))]%positive)
      !! 10%positive = Some (Conversation 2 4)
  ∧ is_Some (profiles
      (run sample_db [(2, InsertConversation 10 (Conversation 2 4));
                      (4, InsertConversation 11 (Conversation 4 9))]%positive)
      !! 2%positive)
  ∧ is_Some (profiles
      (run sample_db [(2, InsertConversation 10 (Conversation 2 4));
                      (4, InsertConversation 11 (Conversation 4 9))]%positive)
      !! 4%positive).
Proof.
  assert (conversations_reference_profiles sample_db) as Hfk
    by apply map_Forall_empty.
  split; [exact Hfk |].
  assert (conversations
            (run sample_db [(2, InsertConversation 10 (Conversation 2 4));
                            (4, InsertConversation 11 (Conversation 4 9))]%positive)
            !! 10%positive = Some (Conversation 2 4)) as Hc
    by (vm_compute; reflexivity).
  split; [exact Hc |].
  exact (conversation_references_resolve sample_db _ Hfk _ _ Hc).
Defined.

(** ** Duplicate keys: the trigger and the backfill *)



Lemma with_conversation_participants_id db :
  with_conversation_participants (conversation_participants db) db = db.
Proof. by destruct db. Qed.


Lemma insert_participant_do_nothing_existing cid u r db :
  is_Some (conversation_participants db !! (cid, u)) →
  insert_participant_do_nothing cid u r db = Ok db.
Proof. intros H. unfold insert_participant_do_nothing. by rewrite bool_decide_eq_true_2. Qed.

Lemma insert_participant_do_nothing_fresh cid u r db :
  conversation_participants db !! (cid, u) = None →
  insert_participant_do_nothing cid u r db = insert_participant cid u r db.
Proof.
  intros H. unfold insert_participant_do_nothing.
  rewrite bool_decide_eq_false_2; [done |]. rewrite H. by intros [? ?].
Qed.

(** Inserting rows with ON CONFLICT DO NOTHING: rows whose key exists are
    skipped, the others are added. *)
Lemma insert_rows_do_nothing rows : ∀ db,
  (∀ k r, (k, r) ∈ rows →
          is_Some (conversations db !! k.1) ∧ is_Some (profiles db !! k.2)) →
  insert_rows insert_participant_do_nothing rows db
  = Ok (with_conversation_participants
          (conversation_participants db ∪ list_to_map rows) db).
Proof.
  induction rows as [|[[cid u] r] rows IH]; intros db Hfk; cbn [insert_rows fst snd].
  - simpl. rewrite (right_id_L ∅ (∪)). by rewrite with_conversation_participants_id.
  - destruct (Hfk (cid, u) r) as [Hc Hu]; [left |]. simpl in Hc, Hu.
    destruct (conversation_participants db !! (cid, u)) as [r0|] eqn:Hk.
    + rewrite insert_participant_do_nothing_existing by (rewrite Hk; eauto).
      cbn [mbind result_bind]. rewrite IH.
      * f_equal. f_equal. apply map_eq. intros k. rewrite !lookup_union.
        destruct (decide (k = (cid, u))) as [->|Hne].
        -- rewrite Hk. simpl.
           by destruct (list_to_map rows !! (cid, u)), (<[(cid, u):=r]> _ !! (cid, u)).
        -- simpl. by rewrite lookup_insert_ne.
      * intros k r' Hin. apply (Hfk k r'). by right.
    + rewrite insert_participant_do_nothing_fresh by done.
      rewrite (insert_participant_fresh _ _ _ _ Hk Hc Hu).
      cbn [mbind result_bind]. rewrite IH.
      * simpl. f_equal. unfold with_conversation_participants. simpl. f_equal.
        rewrite <- insert_union_l. by rewrite insert_union_r.
      * intros k r' Hin. simpl. apply (Hfk k r'). by right.
Qed.

(** Inserting rows without an ON CONFLICT clause succeeds when the keys are
    new and pairwise different. *)
Lemma insert_rows_strict rows : ∀ db,
  NoDup rows.*1 →
  (∀ k r, (k, r) ∈ rows →
          conversation_participants db !! k = None
          ∧ is_Some (conversations db !! k.1) ∧ is_Some (profiles db !! k.2)) →
  insert_rows insert_participant rows db
  = Ok (with_conversation_participants
          (conversation_participants db ∪ list_to_map rows) db).
Proof.
  induction rows as [|[[cid u] r] rows IH]; intros db Hnd Hok;
    cbn [insert_rows fst snd].
  - simpl. rewrite (right_id_L ∅ (∪)). by rewrite with_conversation_participants_id.
  - destruct (Hok (cid, u) r) as (Hk & Hc & Hu); [left |]. simpl in Hc, Hu.
    apply NoDup_cons in Hnd as [Hnotin Hnd].
    rewrite (insert_participant_fresh _ _ _ _ Hk Hc Hu).
    cbn [mbind result_bind]. rewrite IH.
    + simpl. f_equal. unfold with_conversation_participants. simpl. f_equal.
      rewrite <- insert_union_l. by rewrite insert_union_r.
    + done.
    + intros k r' Hin. simpl. destruct (Hok k r') as (? & ? & ?); [by right |].
      split_and!; try done. rewrite lookup_insert_ne; [done |].
      intros <-. apply Hnotin. apply list_elem_of_fmap. by exists ((cid, u), r').
Qed.

Lemma list_to_map_is_Some (rows : list participant_row) k :
  is_Some ((list_to_map rows : gmap (uuid * uuid) role) !! k) ↔ k ∈ rows.*1.
Proof.
  rewrite <- not_eq_None_Some, <- not_elem_of_list_to_map.
  destruct (decide (k ∈ rows.*1)); naive_solver.
Qed.

Lemma backfill_director_rows_ok db k r :
  (k, r) ∈ backfill_director_rows db →
  is_Some (conversations db !! k.1) ∧ is_Some (profiles db !! k.2).
Proof.
  unfold backfill_director_rows. rewrite list_elem_of_omap.
  intros ([cid c] & Hin & Hf). apply elem_of_map_to_list in Hin. simpl in Hf.
  destruct (profiles db !! c_mentor_id c) as [m|]; [simpl in Hf | done].
  destruct (p_director_id m) as [d|]; [simpl in Hf | done].
  destruct (profiles db !! d) as [p|] eqn:Hp; [simpl in Hf | done].
  case_bool_decide; [| done]. simplify_eq. simpl. rewrite Hin, Hp. eauto.
Qed.

Lemma backfill_client_rows_spec db k r :
  (k, r) ∈ backfill_client_rows db
  ↔ ∃ cid c, conversations db !! cid = Some c
             ∧ conversation_participants db !! (cid, c_client_id c) = None
             ∧ k = (cid, c_client_id c) ∧ r = client.
Proof.
  unfold backfill_client_rows. rewrite list_elem_of_omap. split.
  - intros ([cid c] & Hin & Hf). apply elem_of_map_to_list in Hin. simpl in Hf.
    destruct (conversation_participants db !! (cid, c_client_id c)) eqn:Hk;
      [done |].
    simplify_eq. by exists cid, c.
  - intros (cid & c & Hc & Hk & -> & ->). exists (cid, c).
    split; [by apply elem_of_map_to_list |]. simpl. by rewrite Hk.
Qed.

Lemma backfill_mentor_rows_spec db k r :
  (k, r) ∈ backfill_mentor_rows db
  ↔ ∃ cid c, conversations db !! cid = Some c
             ∧ conversation_participants db !! (cid, c_mentor_id c) = None
             ∧ k = (cid, c_mentor_id c) ∧ r = mentor.
Proof.
  unfold backfill_mentor_rows. rewrite list_elem_of_omap. split.
  - intros ([cid c] & Hin & Hf). apply elem_of_map_to_list in Hin. simpl in Hf.
    destruct (conversation_participants db !! (cid, c_mentor_id c)) eqn:Hk;
      [done |].
    simplify_eq. by exists cid, c.
  - intros (cid & c & Hc & Hk & -> & ->). exists (cid, c).
    split; [by apply elem_of_map_to_list |]. simpl. by rewrite Hk.
Qed.

(** Rows selected per conversation have pairwise different keys. *)
Lemma NoDup_rows_per_conversation
    (f : uuid * conversation → option participant_row)
    (l : list (uuid * conversation)) :
  (∀ kc row, f kc = Some row → (row.1).1 = kc.1) →
  NoDup l.*1 → NoDup (omap f l).*1.
Proof.
  intros Hf. induction l as [|kc l IH]; simpl; [constructor |].
  intros [Hnotin Hnd]%NoDup_cons.
  destruct (f kc) as [row|] eqn:Hrow; simpl; [| by apply IH].
  apply NoDup_cons. split; [| by apply IH].
  intros (row' & Heq & Hin)%list_elem_of_fmap.
  apply list_elem_of_omap in Hin as (kc' & Hin & Hrow').
  apply Hnotin. apply list_elem_of_fmap. exists kc'. split; [| done].
  rewrite <- (Hf _ _ Hrow), <- (Hf _ _ Hrow'). by rewrite Heq.
Qed.

Lemma NoDup_backfill_client_rows db : NoDup (backfill_client_rows db).*1.
Proof.
  apply NoDup_rows_per_conversation; [| apply NoDup_fst_map_to_list].
  intros [cid c] row. simpl.
  destruct (conversation_participants db !! (cid, c_client_id c)); [done |].
  by intros [= <-].
Qed.

Lemma NoDup_backfill_mentor_rows db : NoDup (backfill_mentor_rows db).*1.
Proof.
  apply NoDup_rows_per_conversation; [| apply NoDup_fst_map_to_list].
  intros [cid c] row. simpl.
  destruct (conversation_participants db !! (cid, c_mentor_id c)); [done |].
  by intros [= <-].
Qed.




(** The first statement of the backfill never fails. *)
Lemma backfill_directors_ok db :
  insert_rows insert_participant_do_nothing (backfill_director_rows db) db
  = Ok (with_conversation_participants
          (conversation_participants db ∪ list_to_map (backfill_director_rows db)) db).
Proof. apply insert_rows_do_nothing. intros k r. apply backfill_director_rows_ok. Qed.

Lemma backfill_clients_ok db :
  conversations_reference_profiles db →
  insert_rows insert_participant (backfill_client_rows db) db
  = Ok (with_conversation_participants
          (conversation_participants db ∪ list_to_map (backfill_client_rows db)) db).
Proof.
  intros Hfk. apply insert_rows_strict; [apply NoDup_backfill_client_rows |].
  intros k r (cid & c & Hc & Hk & -> & ->)%backfill_client_rows_spec. simpl.
  split_and!; [done | eauto |]. by destruct (Hfk cid c Hc).
Qed.

Lemma backfill_mentors_ok db :
  conversations_reference_profiles db →
  insert_rows insert_participant (backfill_mentor_rows db) db
  = Ok (with_conversation_participants
          (conversation_participants db ∪ list_to_map (backfill_mentor_rows db)) db).
Proof.
  intros Hfk. apply insert_rows_strict; [apply NoDup_backfill_mentor_rows |].
  intros k r (cid & c & Hc & Hk & -> & ->)%backfill_mentor_rows_spec. simpl.
  split_and!; [done | eauto |]. by destruct (Hfk cid c Hc).
Qed.

(** After the second statement every conversation has a row for its client. *)
Lemma client_rows_filled db cid c :
  conversations db !! cid = Some c →
  is_Some ((conversation_participants db ∪ list_to_map (backfill_client_rows db))
             !! (cid, c_client_id c)).
Proof.
  intros Hc. apply lookup_union_is_Some.
  destruct (conversation_participants db !! (cid, c_client_id c)) as [r|] eqn:Hk;
    [left; eauto | right].
  apply list_to_map_is_Some, list_elem_of_fmap.
  exists ((cid, c_client_id c), client). split; [done |].
  apply backfill_client_rows_spec. by exists cid, c.
Qed.

Lemma mentor_rows_filled db cid c :
  conversations db !! cid = Some c →
  is_Some ((conversation_participants db ∪ list_to_map (backfill_mentor_rows db))
             !! (cid, c_mentor_id c)).
Proof.
  intros Hc. apply lookup_union_is_Some.
  destruct (conversation_participants db !! (cid, c_mentor_id c)) as [r|] eqn:Hk;
    [left; eauto | right].
  apply list_to_map_is_Some, list_elem_of_fmap.
  exists ((cid, c_mentor_id c), mentor). split; [done |].
  apply backfill_mentor_rows_spec. by exists cid, c.
Qed.



Example backfill_sample : backfill sample_db_bare = Ok sample_db_10.
Proof. vm_compute. reflexivity. Qed.


(** ** The recorder has no forced stop *)

Lemma updateTimer_mediaRecorderRef now st :
  mediaRecorderRef (updateTimer now st) = mediaRecorderRef st.
Proof. unfold updateTimer. by destruct (startTimeRef st =? 0)%Z. Qed.

Lemma timed_event_keeps_recording st e :
  timed e = true →
  mediaRecorderRef st = Some recording →
  mediaRecorderRef (dispatch st e) = Some recording.
Proof.
  destruct e as [now|now| | |[|]]; try discriminate; intros _ Hrec; simpl.
  - destruct (timerRef st); [by rewrite updateTimer_mediaRecorderRef | done].
  - unfold effect_cleanup. simpl. by rewrite Hrec.
Qed.

(** No sequence of timed events stops a running recorder. *)
Lemma timed_events_keep_recording es : ∀ st,
  forallb timed es = true →
  mediaRecorderRef st = Some recording →
  mediaRecorderRef (foldl dispatch st es) = Some recording.
Proof.
  induction es as [|e es IH]; intros st Hes Hrec; simpl in *; [done |].
  apply andb_true_iff in Hes as [He Hes].
  apply IH; [done |]. by apply timed_event_keeps_recording.
Qed.

(** C9.  The recorder of [AudioRecorder.tsx] left alone: 901 seconds after
    the start it is still capturing, past the 15 minutes of the
    specification.  Its interval has only counted the seconds, or, once the
    cleanup of the previous effect has cleared it, has not fired at all. *)
Theorem recorder_exceeds_max_capture :
  let st := session (unattended_session 1747200000000) in
  let st' := session (unattended_session_rendered 1747200000000) in
  forallb timed (seconds_after 1747200000000) = true
  ∧ mediaRecorderRef st = Some recording
  ∧ isRecording st = true
  ∧ recordingTime st = 901%Z
  ∧ (max_capture_ms < recordingTime st * 1000)%Z
  ∧ mediaRecorderRef st' = Some recording
  ∧ isRecording st' = true
  ∧ timerRef st' = false.
Proof. split_and!; vm_compute; reflexivity. Qed.

(** Whenever the recorder is started, the events that need no user leave it
    capturing, however many they are and whatever time they carry. *)
Lemma recorder_is_never_stopped_by_timer t0 es :
  forallb timed es = true →
  mediaRecorderRef (session (Start t0 :: es)) = Some recording.
Proof.
  intros Hes. unfold session. simpl. by apply timed_events_keep_recording.
Qed.

(** The 15-minute timeout of [MessageInput] calls a [stopRecording] that saw
    [isRecording] false, so it leaves the recorder running, with or without
    the cleanup that clears the timers beforehand. *)
Lemma message_input_timeout_does_not_stop :
  mi_mediaRecorderRef (mi_session (MiStart :: replicate 900 MiTick ++ [MiTimeout]))
  = Some recording
  ∧ mi_mediaRecorderRef
      (mi_session (MiStart :: MiCleanup false :: replicate 900 MiTick ++ [MiTimeout]))
    = Some recording
  ∧ mi_mediaRecorderRef (mi_session [MiStart; MiClickStop]) = Some inactive.
Proof. split_and!; vm_compute; reflexivity. Qed.

(** ** The first select policy of [conversations] *)

(** Director 1 of mentor 2 is a member of conversation 10 by [isMember] and
    by the membership table, yet the first version of the select policy does
    not let the director see it: its subquery never looks at the
    conversation's mentor. *)
Lemma legacy_policy_misses_director :
  isMember sample_db_10 1 (Conversation 4 2)
  ∧ conversations_select_policy sample_db_10 1 10 = true
  ∧ conversations_select_policy_legacy sample_db_10 1 (Conversation 4 2) = false.
Proof.
  split_and!.
  - right. right. vm_compute. reflexivity.
  - vm_compute. reflexivity.
  - vm_compute. reflexivity.
Qed.

(** * Further properties of the schema *)

(** ** When a conversation can be created *)

(** X1.  On a database with referential integrity, a conversation is created
    exactly when the insert policy passes, the identifier is new, both
    profiles exist, client and mentor differ, and the mentor's director, if
    any, is neither of them. *)
Theorem creation_succeeds_iff uid new_id NEW db :
  participants_reference_conversations db →
  directors_resolve db →
  (∃ db', insert_conversation uid new_id NEW db = Ok db')
  ↔ conversations_insert_policy db uid NEW = true
    ∧ conversations db !! new_id = None
    ∧ is_Some (profiles db !! c_client_id NEW)
    ∧ is_Some (profiles db !! c_mentor_id NEW)
    ∧ c_client_id NEW ≠ c_mentor_id NEW
    ∧ ∀ d, profiles db !! c_mentor_id NEW ≫= p_director_id = Some d →
           d ≠ c_client_id NEW ∧ d ≠ c_mentor_id NEW.
Proof.
  intros Hfk Hdir. split.
  - intros [db' H]. apply insert_conversation_Ok in H as (Hpol & Hfresh & Hc & Hm & H).
    apply add_conversation_participants_Ok in H as (_ & _ & Hne & Hd & _).
    split_and!; try done. intros d Hdd. by destruct (Hd d Hdd) as (_ & ? & ?).
  - intros (Hpol & Hfresh & Hc & Hm & Hne & Hd).
    rewrite insert_conversation_checked by done.
    set (db0 := with_conversations (<[new_id := NEW]> (conversations db)) db).
    assert (is_Some (conversations db0 !! new_id)) as Hconv.
    { simpl. rewrite lookup_insert_eq. eauto. }
    unfold add_conversation_participants.
    rewrite (insert_participant_fresh new_id (c_client_id NEW) client db0);
      [| simpl; by apply no_rows_without_conversation | done | done].
    cbn [mbind result_bind].
    rewrite insert_participant_fresh; [| | done | done]; last first.
    { simpl. rewrite lookup_insert_ne by congruence.
      by apply no_rows_without_conversation. }
    cbn [mbind result_bind]. change (profiles db0) with (profiles db).
    destruct (profiles db !! c_mentor_id NEW ≫= p_director_id) as [d|] eqn:Hdd;
      [| eauto].
    destruct (Hd d eq_refl) as [Hdc Hdm].
    rewrite insert_participant_fresh; [eauto | | done |].
    + simpl. rewrite !lookup_insert_ne by congruence.
      by apply no_rows_without_conversation.
    + simpl. destruct (profiles db !! c_mentor_id NEW) as [pm|] eqn:Hpm; [| done].
      simpl in Hdd. by apply (Hdir _ _ Hpm).
Qed.

Lemma sample_directors_resolve : directors_resolve sample_db_10.
Proof.
  unfold directors_resolve. apply map_Forall_lookup. intros i p Hp d Hd.
  assert (d = 1%positive) as ->.
  { destruct (decide (i = 1%positive)) as [->|]; [vm_compute in Hp; by simplify_eq/= |].
    destruct (decide (i = 2%positive)) as [->|]; [vm_compute in Hp; by simplify_eq/= |].
    destruct (decide (i = 3%positive)) as [->|]; [vm_compute in Hp; by simplify_eq/= |].
    destruct (decide (i = 4%positive)) as [->|]; [vm_compute in Hp; by simplify_eq/= |].
    destruct (decide (i = 5%positive)) as [->|]; [vm_compute in Hp; by simplify_eq/= |].
    unfold sample_db_10, sample_profiles in Hp. simpl in Hp.
    rewrite !lookup_insert_ne in Hp by done. by rewrite lookup_empty in Hp. }
  vm_compute. eauto.
Defined.

Lemma creation_succeeds_iff_witness :
  participants_reference_conversations sample_db_10
  ∧ directors_resolve sample_db_10
  ∧ (∃ db', insert_conversation 5 11 (Conversation 5 3) sample_db_10 = Ok db')
  ∧ conversations_insert_policy sample_db_10 5 (Conversation 5 3) = true.
Proof.
  split; [exact sample_db_10_integrity |]. split; [exact sample_directors_resolve |].
  assert (∃ db', insert_conversation 5 11 (Conversation 5 3) sample_db_10 = Ok db') as H.
  { eexists. vm_compute. reflexivity. }
  split; [exact H |].
  exact (proj1 (proj1 (creation_succeeds_iff 5 11 (Conversation 5 3) sample_db_10
                         sample_db_10_integrity sample_directors_resolve) H)).
Defined.

(** X2.  Creating a conversation adds its row and its membership rows and
    nothing else: profiles, messages, folders, folder items and the
    membership rows of every other conversation stay as they were. *)
Theorem creation_frame uid new_id NEW db db' :
  insert_conversation uid new_id NEW db = Ok db' →
  profiles db' = profiles db
  ∧ conversations db' = <[new_id := NEW]> (conversations db)
  ∧ audio_messages db' = audio_messages db
  ∧ folders db' = folders db
  ∧ folder_items db' = folder_items db
  ∧ ∀ c u, c ≠ new_id →
           conversation_participants db' !! (c, u) = conversation_participants db !! (c, u).
Proof.
  intros (_ & _ & _ & _ & H)%insert_conversation_Ok.
  apply add_conversation_participants_Ok in H as (_ & _ & _ & _ & ->). simpl.
  split_and!; try done. intros c u Hne.
  destruct (profiles db !! c_mentor_id NEW ≫= p_director_id) as [d|]; simpl.
  - rewrite !lookup_insert_ne by congruence. done.
  - rewrite !lookup_insert_ne by congruence. done.
Qed.

Lemma creation_frame_witness :
  insert_conversation 5 11 (Conversation 5 3) sample_db_10
  = Ok (commit sample_db_10 (insert_conversation 5 11 (Conversation 5 3) sample_db_10))
  ∧ conversation_participants
      (commit sample_db_10 (insert_conversation 5 11 (Conversation 5 3) sample_db_10))
      !! (10, 4)%positive
    = conversation_participants sample_db_10 !! (10, 4)%positive.
Proof.
  assert (insert_conversation 5 11 (Conversation 5 3) sample_db_10
          = Ok (commit sample_db_10
                  (insert_conversation 5 11 (Conversation 5 3) sample_db_10))) as H
    by (vm_compute; reflexivity).
  split; [exact H |].
  apply (creation_frame 5 11 (Conversation 5 3) sample_db_10 _ H). discriminate.
Defined.

(** ** Referential integrity along a run *)

Lemma insert_folder_item_refs uid folder_id message_id db db' :
  insert_folder_item uid folder_id message_id db = Ok db' →
  is_Some (folders db !! folder_id) ∧ is_Some (audio_messages db !! message_id).
Proof.
  unfold insert_folder_item.
  destruct (folder_items_insert_policy db uid folder_id message_id);
    [simpl | discriminate].
  repeat case_bool_decide; try discriminate. intros _.
  split; by apply not_eq_None_Some.
Qed.

Lemma step_keeps_folder_items_reference db ur :
  folder_items_reference db → folder_items_reference (step db ur).
Proof.
  intros Hfk. unfold step. destruct ur as [uid [new_id NEW|new_id NEW|msg_id|fid mid]];
    simpl.
  - destruct (insert_conversation uid new_id NEW db) as [db'|e] eqn:H; [| done].
    apply insert_conversation_Ok in H as (_ & _ & _ & _ & H). simpl.
    by apply add_conversation_participants_frame in H as (ps & -> & _).
  - destruct (insert_audio_message uid new_id NEW db) as [db'|e] eqn:H; [| done].
    apply insert_audio_message_Ok in H as (_ & ->). simpl.
    unfold folder_items_reference in *. simpl.
    eapply map_Forall_impl; [done |]. simpl. intros k _ [? [m Hm]].
    split; [done |]. destruct (decide (new_id = k.2)) as [->|Hne].
    + rewrite lookup_insert_eq. eauto.
    + rewrite lookup_insert_ne by done. eauto.
  - unfold delete_audio_message.
    destruct (audio_messages db !! msg_id) as [m|]; [| done].
    destruct (audio_messages_select_policy db uid m && audio_messages_delete_policy uid m);
      [| done].
    unfold folder_items_reference in *. simpl.
    intros k [] [Hk Hne]%map_lookup_filter_Some. simpl in Hne.
    destruct (Hfk k () Hk) as [? ?]. split; [done |].
    by rewrite lookup_delete_ne.
  - destruct (insert_folder_item uid fid mid db) as [db'|e] eqn:H; [| done].
    pose proof (insert_folder_item_refs _ _ _ _ _ H) as [? ?].
    apply insert_folder_item_Ok in H as ->. simpl.
    unfold folder_items_reference in *. simpl. by apply map_Forall_insert_2.
Qed.

Lemma insert_participant_keeps_profile_refs cid u r db db' :
  insert_participant cid u r db = Ok db' →
  participants_reference_profiles db →
  participants_reference_profiles db'.
Proof.
  intros (_ & _ & Hu & ->)%insert_participant_Ok Hfk.
  unfold participants_reference_profiles in *. simpl.
  by apply map_Forall_insert_2.
Qed.

Lemma step_keeps_participants_profiles db ur :
  participants_reference_profiles db → participants_reference_profiles (step db ur).
Proof.
  intros Hfk. unfold step. destruct ur as [uid [new_id NEW|new_id NEW|msg_id|fid mid]];
    simpl.
  - destruct (insert_conversation uid new_id NEW db) as [db'|e] eqn:H; [| done].
    apply insert_conversation_Ok in H as (_ & _ & _ & _ & H). simpl.
    unfold add_conversation_participants in H.
    apply bind_Ok in H as (db1 & H1 & H). apply bind_Ok in H as (db2 & H2 & H).
    apply insert_participant_keeps_profile_refs in H1; [| done].
    apply insert_participant_keeps_profile_refs in H2; [| done].
    simpl in H. destruct (profiles db !! c_mentor_id NEW ≫= p_director_id).
    + by apply insert_participant_keeps_profile_refs in H.
    + by simplify_eq.
  - destruct (insert_audio_message uid new_id NEW db) as [db'|e] eqn:H; [| done].
    apply insert_audio_message_Ok in H as (_ & ->). done.
  - destruct (delete_audio_message_frame uid msg_id db) as (Hp & _ & Hcp & _).
    unfold participants_reference_profiles. by rewrite Hp, Hcp.
  - destruct (insert_folder_item uid fid mid db) as [db'|e] eqn:H; [| done].
    apply insert_folder_item_Ok in H as ->. done.
Qed.

(** X3.  No sequence of requests breaks referential integrity: membership
    rows keep referencing stored conversations and profiles, folder items
    stored folders and messages, and every stored message keeps a sender who
    is a member of its conversation. *)
Theorem integrity_kept_by_run db (rs : list (uuid * request)) :
  participants_reference_conversations db
  ∧ participants_reference_profiles db
  ∧ folder_items_reference db
  ∧ senders_are_members db →
  participants_reference_conversations (run db rs)
  ∧ participants_reference_profiles (run db rs)
  ∧ folder_items_reference (run db rs)
  ∧ senders_are_members (run db rs).
Proof.
  unfold run. revert db. induction rs as [|ur rs IH]; intros db H; simpl; [done |].
  apply IH. destruct H as (H1 & H2 & H3 & H4). split_and!.
  - by apply step_keeps_conversation_refs.
  - by apply step_keeps_participants_profiles.
  - by apply step_keeps_folder_items_reference.
  - by apply step_keeps_senders_members.
Qed.

Lemma integrity_kept_by_run_witness :
  (participants_reference_conversations sample_db
   ∧ participants_reference_profiles sample_db
   ∧ folder_items_reference sample_db
   ∧ senders_are_members sample_db)
  ∧ senders_are_members
      (run sample_db [(4, InsertConversation 10 (Conversation 4 2));
                      (4, InsertAudioMessage 77 (AudioMessage 10 4 "10/77.mp3" 12));
                      (1, DeleteAudioMessage 77);
                      (4, DeleteAudioMessage 77)]%positive).
Proof.
  assert (participants_reference_conversations sample_db
          ∧ participants_reference_profiles sample_db
          ∧ folder_items_reference sample_db
          ∧ senders_are_members sample_db) as H.
  { split_and!; apply map_Forall_empty. }
  split; [exact H |].
  exact (proj2 (proj2 (proj2 (integrity_kept_by_run sample_db _ H)))).
Defined.

(** ** Deleting a message *)

(** X4.  When the sender, a member of the conversation, deletes a message,
    the folder items that reference it go with it and every other folder item
    and every other message stays. *)
Theorem delete_cascades_to_folder_items db (msg_id : uuid) (M : audio_message) :
  audio_messages db !! msg_id = Some M →
  is_conversation_member db (m_sender_id M) (m_conversation_id M) = true →
  let db' := delete_audio_message (m_sender_id M) msg_id db in
  (∀ f m, folder_items db' !! (f, m)
          = if decide (m = msg_id) then None else folder_items db !! (f, m))
  ∧ (∀ id, audio_messages db' !! id
           = if decide (id = msg_id) then None else audio_messages db !! id)
  ∧ folders db' = folders db.
Proof.
  intros HM Hmem. unfold delete_audio_message. rewrite HM.
  unfold audio_messages_select_policy, audio_messages_delete_policy.
  rewrite Hmem, bool_decide_eq_true_2 by done. simpl. split_and!; [| | done].
  - intros f m. destruct (decide (m = msg_id)) as [->|Hne].
    + apply map_lookup_filter_None. right. intros [] _. simpl. by intros ?.
    + destruct (folder_items db !! (f, m)) as [[]|] eqn:Hk.
      * apply map_lookup_filter_Some. done.
      * apply map_lookup_filter_None. by left.
  - intros id. destruct (decide (id = msg_id)) as [->|Hne].
    + apply lookup_delete_eq.
    + by apply lookup_delete_ne.
Qed.

Lemma delete_cascades_to_folder_items_witness :
  audio_messages sample_db_filed !! 77%positive = Some (AudioMessage 10 4 "10/77.mp3" 12)
  ∧ is_conversation_member sample_db_filed 4 10 = true
  ∧ folder_items (delete_audio_message 4 77 sample_db_filed) !! (20, 77)%positive = None.
Proof.
  assert (audio_messages sample_db_filed !! 77%positive
          = Some (AudioMessage 10 4 "10/77.mp3" 12)) as HM by (vm_compute; reflexivity).
  assert (is_conversation_member sample_db_filed 4 10 = true) as Hmem
    by (vm_compute; reflexivity).
  split; [exact HM |]. split; [exact Hmem |].
  destruct (delete_cascades_to_folder_items sample_db_filed 77 _ HM Hmem) as (H & _).
  exact (H 20%positive 77%positive).
Defined.

(** ** What the backfill writes *)

Lemma backfill_director_rows_spec db k r :
  (k, r) ∈ backfill_director_rows db
  ↔ ∃ cid c m d p, conversations db !! cid = Some c
                   ∧ profiles db !! c_mentor_id c = Some m
                   ∧ p_director_id m = Some d
                   ∧ profiles db !! d = Some p
                   ∧ p_full_name p = "Greg Bottaro"
                   ∧ k = (cid, d) ∧ r = training_director.
Proof.
  unfold backfill_director_rows. rewrite list_elem_of_omap. split.
  - intros ([cid c] & Hin & Hf). apply elem_of_map_to_list in Hin. simpl in Hf.
    destruct (profiles db !! c_mentor_id c) as [m|] eqn:Hm; [simpl in Hf | done].
    destruct (p_director_id m) as [d|] eqn:Hd; [simpl in Hf | done].
    destruct (profiles db !! d) as [p|] eqn:Hp; [simpl in Hf | done].
    case_bool_decide; [| done]. simplify_eq. by exists cid, c, m, d, p.
  - intros (cid & c & m & d & p & Hc & Hm & Hd & Hp & Hn & -> & ->).
    exists (cid, c). split; [by apply elem_of_map_to_list |]. simpl.
    rewrite Hm. simpl. rewrite Hd. simpl. rewrite Hp. simpl.
    by rewrite bool_decide_eq_true_2.
Qed.

(** The database the three statements leave. *)
Lemma backfill_result db :
  conversations_reference_profiles db →
  ∃ ps, backfill db = Ok (with_conversation_participants ps db)
        ∧ ∀ k, (is_Some (ps !! k)
                ↔ is_Some (conversation_participants db !! k)
                  ∨ k ∈ (backfill_director_rows db).*1
                  ∨ (∃ cid c, conversations db !! cid = Some c
                              ∧ (k = (cid, c_client_id c) ∨ k = (cid, c_mentor_id c))))
               ∧ (∀ r, conversation_participants db !! k = Some r → ps !! k = Some r).
Proof.
  intros Hfk.
  set (db1 := with_conversation_participants
                (conversation_participants db
                 ∪ list_to_map (backfill_director_rows db)) db).
  set (db2 := with_conversation_participants
                (conversation_participants db1
                 ∪ list_to_map (backfill_client_rows db1)) db1).
  set (db3 := with_conversation_participants
                (conversation_participants db2
                 ∪ list_to_map (backfill_mentor_rows db2)) db2).
  assert (conversations_reference_profiles db1) as Hfk1 by done.
  assert (conversations_reference_profiles db2) as Hfk2 by done.
  exists (conversation_participants db3). split.
  { unfold backfill. rewrite backfill_directors_ok. cbn [mbind result_bind].
    fold db1. rewrite (backfill_clients_ok db1 Hfk1). cbn [mbind result_bind].
    fold db2. by rewrite (backfill_mentors_ok db2 Hfk2). }
  intros k. split.
  - simpl. rewrite !lookup_union_is_Some, !list_to_map_is_Some. split.
    + intros [[[H|H]|H]|H]; [by left | right; by left | |].
      * apply list_elem_of_fmap in H as ([k' r] & -> & H).
        apply backfill_client_rows_spec in H as (cid & c & Hc & _ & -> & _).
        right. right. exists cid, c. split; [done |]. by left.
      * apply list_elem_of_fmap in H as ([k' r] & -> & H).
        apply backfill_mentor_rows_spec in H as (cid & c & Hc & _ & -> & _).
        right. right. exists cid, c. split; [done |]. by right.
    + intros [H|[H|H]]; [left; left; by left | left; left; by right |].
      destruct H as (cid & c & Hc & [Hk|Hk]); subst k.
      * pose proof (client_rows_filled db1 cid c Hc) as H.
        apply lookup_union_is_Some in H. rewrite list_to_map_is_Some in H.
        simpl in H. rewrite lookup_union_is_Some, list_to_map_is_Some in H.
        left. exact H.
      * pose proof (mentor_rows_filled db2 cid c Hc) as H.
        apply lookup_union_is_Some in H. rewrite list_to_map_is_Some in H.
        simpl in H. rewrite !lookup_union_is_Some, !list_to_map_is_Some in H.
        exact H.
  - intros r Hr. simpl.
    do 3 (apply lookup_union_Some_l). done.
Qed.

(** X5.  After the backfill every conversation has a membership row for its
    client and for its mentor; the rows that existed keep their roles; no
    other table is touched. *)
Theorem backfill_completes_membership db db' :
  conversations_reference_profiles db →
  backfill db = Ok db' →
  (∀ cid c, conversations db !! cid = Some c →
            is_conversation_member db' (c_client_id c) cid = true
            ∧ is_conversation_member db' (c_mentor_id c) cid = true)
  ∧ (∀ k r, conversation_participants db !! k = Some r →
            conversation_participants db' !! k = Some r)
  ∧ profiles db' = profiles db
  ∧ conversations db' = conversations db
  ∧ audio_messages db' = audio_messages db
  ∧ folders db' = folders db
  ∧ folder_items db' = folder_items db.
Proof.
  intros Hfk Hb. destruct (backfill_result db Hfk) as (ps & Hres & Hps).
  rewrite Hres in Hb. injection Hb as <-. simpl. split_and!; try done.
  - intros cid c Hc. rewrite !is_conversation_member_true. simpl.
    split; apply (proj1 (Hps _)); right; right; exists cid, c; auto.
  - intros k r. apply (proj2 (Hps k)).
Qed.

Lemma backfill_completes_membership_witness :
  conversations_reference_profiles sample_db_bare
  ∧ backfill sample_db_bare = Ok sample_db_10
  ∧ is_conversation_member sample_db_10 4 10 = true
  ∧ is_conversation_member sample_db_10 2 10 = true.
Proof.
  assert (conversations_reference_profiles sample_db_bare) as Hfk.
  { unfold conversations_reference_profiles.
    apply (bool_decide_unpack _). vm_compute. exact I. }
  assert (backfill sample_db_bare = Ok sample_db_10) as Hb by (vm_compute; reflexivity).
  split; [exact Hfk |]. split; [exact Hb |].
  destruct (backfill_completes_membership _ _ Hfk Hb) as (H & _).
  apply (H 10%positive (Conversation 4 2)). vm_compute. reflexivity.
Defined.

(** X6.  The backfill adds director rows for the director named
    'Greg Bottaro' only: the director of a conversation's mentor who bears
    another name, is not a party of the conversation and has no row, has none
    afterwards either. *)
Theorem backfill_skips_other_directors db db' cid c m d p :
  conversations_reference_profiles db →
  backfill db = Ok db' →
  conversations db !! cid = Some c →
  profiles db !! c_mentor_id c = Some m →
  p_director_id m = Some d →
  profiles db !! d = Some p →
  p_full_name p ≠ "Greg Bottaro" →
  d ≠ c_client_id c → d ≠ c_mentor_id c →
  conversation_participants db !! (cid, d) = None →
  is_conversation_member db' d cid = false.
Proof.
  intros Hfk Hb Hc Hm Hd Hp Hname Hdc Hdm Hnone.
  destruct (backfill_result db Hfk) as (ps & Hres & Hps).
  rewrite Hres in Hb. injection Hb as <-.
  apply is_conversation_member_false. simpl. apply eq_None_not_Some.
  intros [H|[H|(cid' & c' & Hc' & [H|H])]]%(proj1 (Hps _)).
  - rewrite Hnone in H. by destruct H.
  - apply list_elem_of_fmap in H as ([k r] & Hk & H). simpl in Hk. subst k.
    apply backfill_director_rows_spec in H
      as (cid' & c' & m' & d' & p' & _ & _ & _ & Hp' & Hn' & Hk & _).
    by simplify_eq.
  - by simplify_eq.
  - by simplify_eq.
Qed.

Lemma backfill_skips_other_directors_witness :
  conversations_reference_profiles sample_db_other_director
  ∧ (∃ db', backfill sample_db_other_director = Ok db'
            ∧ is_conversation_member db' 7 11 = false
            ∧ is_conversation_member db' 6 11 = true).
Proof.
  assert (conversations_reference_profiles sample_db_other_director) as Hfk.
  { unfold conversations_reference_profiles.
    apply (bool_decide_unpack _). vm_compute. exact I. }
  split; [exact Hfk |].
  eexists. split; [vm_compute; reflexivity |]. split.
  - eapply (backfill_skips_other_directors sample_db_other_director _ 11
              (Conversation 5 6) (Profile mentor None (Some 7%positive) "Mentor C") 7
              (Profile training_director None None "Director B") Hfk).
    + vm_compute. reflexivity.
    + vm_compute. reflexivity.
    + vm_compute. reflexivity.
    + reflexivity.
    + vm_compute. reflexivity.
    + discriminate.
    + discriminate.
    + discriminate.
    + vm_compute. reflexivity.
  - vm_compute. reflexivity.
Defined.

(** ** The first select policy and the director *)

(** X7.  As long as no profile names itself as its mentor, the first version
    of the select policy of [conversations] lets a requester see exactly the
    conversations it is the client or the mentor of: a training director
    sees none of the conversations of its mentors. *)
Theorem legacy_policy_admits_parties_only db (uid : uuid) (c : conversation) :
  (∀ id p, profiles db !! id = Some p → p_mentor_id p ≠ Some id) →
  conversations_select_policy_legacy db uid c = true
  ↔ c_client_id c = uid ∨ c_mentor_id c = uid.
Proof.
  intros Hself. unfold conversations_select_policy_legacy.
  rewrite !orb_true_iff, !bool_decide_eq_true. split; [| tauto].
  intros [?|[?|H]]; [by left | by right |].
  apply map_Exists_lookup in H as (id & p & Hp & Hm & _). by destruct (Hself id p Hp).
Qed.

Lemma legacy_policy_admits_parties_only_witness :
  (∀ id p, profiles sample_db_10 !! id = Some p → p_mentor_id p ≠ Some id)
  ∧ isMember sample_db_10 1 (Conversation 4 2)
  ∧ ¬ (conversations_select_policy_legacy sample_db_10 1 (Conversation 4 2) = true).
Proof.
  assert (∀ id p, profiles sample_db_10 !! id = Some p → p_mentor_id p ≠ Some id)
    as Hself.
  { intros id p Hp.
    destruct (decide (id = 1%positive)) as [->|]; [vm_compute in Hp; by simplify_eq/= |].
    destruct (decide (id = 2%positive)) as [->|]; [vm_compute in Hp; by simplify_eq/= |].
    destruct (decide (id = 3%positive)) as [->|]; [vm_compute in Hp; by simplify_eq/= |].
    destruct (decide (id = 4%positive)) as [->|]; [vm_compute in Hp; by simplify_eq/= |].
    destruct (decide (id = 5%positive)) as [->|]; [vm_compute in Hp; by simplify_eq/= |].
    unfold sample_db_10, sample_profiles in Hp. simpl in Hp.
    rewrite !lookup_insert_ne in Hp by done. by rewrite lookup_empty in Hp. }
  split; [exact Hself |]. split; [right; right; vm_compute; reflexivity |].
  intros H.
  apply (legacy_policy_admits_parties_only sample_db_10 1 (Conversation 4 2) Hself) in H.
  destruct H as [H|H]; discriminate H.
Defined.

(** ** Updating a profile *)

Lemma reference_ok_same db r : reference_ok db r r = true.
Proof. unfold reference_ok. by rewrite bool_decide_eq_true_2. Qed.

(** X8.  Saving the profile page never fails; it replaces the full name of
    the requester's own profile and changes neither its role nor its mentor
    or director, nor any other profile or table. *)
Theorem handleSubmit_changes_name_only (uid : uuid) (fullName : string) db :
  ∃ db', handleSubmit uid fullName db = Ok db'
         ∧ profiles db' !! uid
           = (λ p, Profile (p_role p) (p_mentor_id p) (p_director_id p) fullName)
               <$> profiles db !! uid
         ∧ (∀ id, id ≠ uid → profiles db' !! id = profiles db !! id)
         ∧ conversations db' = conversations db
         ∧ conversation_participants db' = conversation_participants db
         ∧ audio_messages db' = audio_messages db
         ∧ folders db' = folders db
         ∧ folder_items db' = folder_items db.
Proof.
  unfold handleSubmit, update_profiles.
  destruct (profiles db !! uid) as [p|] eqn:Hp.
  - unfold profiles_update_policy. rewrite bool_decide_eq_true_2 by done.
    simpl. rewrite !reference_ok_same. simpl. eexists. split; [done |]. simpl.
    split_and!; try done.
    + by rewrite lookup_insert_eq.
    + intros id Hne. by rewrite lookup_insert_ne.
  - exists db. rewrite Hp. done.
Qed.

(** X9.  A requester can update no profile but its own; on its own profile
    the policy accepts every role and every mentor and director that exist,
    and no update touches a membership row. *)
Theorem profile_update_scope (uid id : uuid) (set : profile → profile) db :
  (id ≠ uid → update_profiles uid id set db = Ok db)
  ∧ (∀ p, profiles db !! uid = Some p →
          (∀ r, p_mentor_id (set p) = Some r → is_Some (profiles db !! r)) →
          (∀ r, p_director_id (set p) = Some r → is_Some (profiles db !! r)) →
          update_profiles uid uid set db
          = Ok (with_profiles (<[uid := set p]> (profiles db)) db))
  ∧ (∀ db', update_profiles uid id set db = Ok db' →
            conversation_participants db' = conversation_participants db
            ∧ conversations db' = conversations db).
Proof.
  split_and!.
  - intros Hne. unfold update_profiles, profiles_update_policy.
    destruct (profiles db !! id); [| done].
    by rewrite bool_decide_eq_false_2.
  - intros p Hp Hm Hd. unfold update_profiles, profiles_update_policy.
    rewrite Hp, bool_decide_eq_true_2 by done.
    assert (∀ old new, (∀ r, new = Some r → is_Some (profiles db !! r)) →
                       reference_ok db old new = true) as Hok.
    { intros old [r|] H; unfold reference_ok; apply orb_true_iff; right; [| done].
      apply bool_decide_eq_true. by apply H. }
    rewrite (Hok _ _ Hm), (Hok _ _ Hd). done.
  - intros db'. unfold update_profiles.
    destruct (profiles db !! id) as [p|]; [| by intros [= <-]].
    destruct (profiles_update_policy uid id); [| by intros [= <-]].
    destruct (reference_ok db (p_mentor_id p) (p_mentor_id (set p))); [| done].
    destruct (reference_ok db (p_director_id p) (p_director_id (set p))); [| done].
    by intros [= <-].
Qed.

Lemma profile_update_scope_witness :
  update_profiles 4 2 (λ p, Profile client None None "x") sample_db_10 = Ok sample_db_10
  ∧ profiles (commit sample_db_10
                (update_profiles 4 4 (λ p, Profile training_director None None "Client A")
                   sample_db_10)) !! 4%positive
    = Some (Profile training_director None None "Client A").
Proof.
  destruct (profile_update_scope 4 2 (λ p, Profile client None None "x") sample_db_10)
    as (H1 & _ & _).
  destruct (profile_update_scope 4 4
              (λ p, Profile training_director None None "Client A") sample_db_10)
    as (_ & H2 & _).
  split; [apply H1; discriminate |].
  rewrite (H2 (Profile client (Some 2%positive) None "Client A")).
  - vm_compute. reflexivity.
  - vm_compute. reflexivity.
  - discriminate.
  - discriminate.
Defined.

(** X10.  Membership is a snapshot: when a mentor names a new director, the
    conversations of the mentor keep the rows they had.  The new director is
    a member by [isMember] but has no row and cannot select the conversation;
    the former director keeps its row. *)
Theorem director_change_is_not_materialized db db' cid c m (d' : uuid) pm :
  conversations db !! cid = Some c →
  c_mentor_id c = m →
  profiles db !! m = Some pm →
  is_Some (profiles db !! d') →
  conversation_participants db !! (cid, d') = None →
  update_profiles m m
    (λ p, Profile (p_role p) (p_mentor_id p) (Some d') (p_full_name p)) db = Ok db' →
  isMember db' d' c
  ∧ is_conversation_member db' d' cid = false
  ∧ conversations_select_policy db' d' cid = false
  ∧ ∀ u, is_conversation_member db' u cid = is_conversation_member db u cid.
Proof.
  intros Hc Hcm Hpm Hd' Hnone Hup.
  unfold update_profiles, profiles_update_policy in Hup.
  rewrite Hpm, bool_decide_eq_true_2 in Hup by done. simpl in Hup.
  rewrite reference_ok_same in Hup. simpl in Hup.
  destruct (reference_ok db (p_director_id pm) (Some d')); [simpl in Hup | done].
  injection Hup as <-. split_and!.
  - right. right. rewrite Hcm. simpl. by rewrite lookup_insert_eq.
  - by apply is_conversation_member_false.
  - unfold conversations_select_policy. apply bool_decide_eq_false.
    rewrite visible_participants_own. simpl. rewrite Hnone. by intros [? ?].
  - done.
Qed.

Lemma director_change_is_not_materialized_witness :
  conversations sample_db_10 !! 10%positive = Some (Conversation 4 2)
  ∧ profiles sample_db_10 !! 2%positive
    = Some (Profile mentor None (Some 1%positive) "Mentor A")
  ∧ is_Some (profiles sample_db_10 !! 3%positive)
  ∧ conversation_participants sample_db_10 !! (10, 3)%positive = None
  ∧ ∃ db', update_profiles 2 2
             (λ p, Profile (p_role p) (p_mentor_id p) (Some 3%positive) (p_full_name p))
             sample_db_10 = Ok db'
           ∧ isMember db' 3 (Conversation 4 2)
           ∧ is_conversation_member db' 3 10 = false
           ∧ is_conversation_member db' 1 10 = true.
Proof.
  assert (conversations sample_db_10 !! 10%positive = Some (Conversation 4 2)) as Hc
    by (vm_compute; reflexivity).
  assert (profiles sample_db_10 !! 2%positive
          = Some (Profile mentor None (Some 1%positive) "Mentor A")) as Hpm
    by (vm_compute; reflexivity).
  assert (is_Some (profiles sample_db_10 !! 3%positive)) as Hd by (vm_compute; eauto).
  assert (conversation_participants sample_db_10 !! (10, 3)%positive = None) as Hn
    by (vm_compute; reflexivity).
  split; [exact Hc |]. split; [exact Hpm |]. split; [exact Hd |]. split; [exact Hn |].
  set (upd := update_profiles 2 2
                (λ p, Profile (p_role p) (p_mentor_id p) (Some 3%positive) (p_full_name p))
                sample_db_10).
  assert (upd = Ok (commit sample_db_10 upd)) as Hup by (vm_compute; reflexivity).
  exists (commit sample_db_10 upd). split; [exact Hup |].
  destruct (director_change_is_not_materialized sample_db_10 (commit sample_db_10 upd)
              10 (Conversation 4 2) 2 3 _ Hc eq_refl Hpm Hd Hn Hup)
    as (H1 & H2 & _ & H4).
  split; [exact H1 |]. split; [exact H2 |].
  rewrite H4. vm_compute. reflexivity.
Defined.

(** ** Favorites and bookmarks are private *)

(** X11.  A favorite of one user is out of reach of every other requester:
    it is not among the rows the requester can select, the requester cannot
    insert or delete it, and toggling a favorite never changes a row of
    another user. *)
Theorem favorites_are_private (U1 U2 : uuid) (db : database) (fs : gmap (uuid * uuid) unit) :
  U1 ≠ U2 →
  (∀ m, visible_favorites U2 fs !! (U1, m) = None)
  ∧ (∀ m, insert_favorite U2 U1 m db fs = Err (rls_violation "favorites"))
  ∧ (∀ m, delete_favorite U2 U1 m fs = fs)
  ∧ (∀ m m' flag, (toggleFavorite U2 m' flag db fs).1 !! (U1, m) = fs !! (U1, m)).
Proof.
  intros Hne. split_and!.
  - intros m. apply map_lookup_filter_None. right. intros [] _. simpl.
    unfold favorites_policy. simpl. by rewrite bool_decide_eq_false_2.
  - intros m. unfold insert_favorite, favorites_policy. simpl.
    by rewrite bool_decide_eq_false_2.
  - intros m. unfold delete_favorite, favorites_policy. simpl.
    by rewrite bool_decide_eq_false_2.
  - intros m m' [|]; unfold toggleFavorite; simpl.
    + unfold delete_favorite, favorites_policy. simpl.
      rewrite bool_decide_eq_true_2 by done. apply lookup_delete_ne. congruence.
    + unfold insert_favorite, favorites_policy. simpl.
      rewrite bool_decide_eq_true_2 by done. simpl.
      repeat case_bool_decide; try done. apply lookup_insert_ne. congruence.
Qed.

Lemma favorites_are_private_witness :
  (4 ≠ 2)%positive
  ∧ visible_favorites 2 {[ (4, 77)%positive := () ]} !! (4, 77)%positive = None
  ∧ delete_favorite 2 4 77 {[ (4, 77)%positive := () ]} = {[ (4, 77)%positive := () ]}.
Proof.
  assert (4 ≠ 2)%positive as Hne by discriminate.
  destruct (favorites_are_private 4 2 sample_db_77 {[ (4, 77)%positive := () ]} Hne)
    as (H1 & _ & H3 & _).
  split; [exact Hne |]. split; [apply H1 | apply H3].
Defined.

(** X12.  After a toggle the flag of the player agrees with the table, when
    the user's profile and the message exist, whatever the flag and the table
    were before.  When the message does not exist any more, toggling an
    unset flag sets it although nothing is stored. *)
Theorem toggleFavorite_flag_and_table (uid messageId : uuid) (favorite : bool) (db : database)
    (fs : gmap (uuid * uuid) unit) :
  is_Some (profiles db !! uid) →
  (is_Some (audio_messages db !! messageId) →
   (toggleFavorite uid messageId favorite db fs).2 = true
   ↔ is_Some ((toggleFavorite uid messageId favorite db fs).1 !! (uid, messageId)))
  ∧ (audio_messages db !! messageId = None →
     fs !! (uid, messageId) = None →
     toggleFavorite uid messageId false db fs = (fs, true)).
Proof.
  intros Hp. split.
  - intros Hm. unfold toggleFavorite. destruct favorite; simpl.
    + unfold delete_favorite, favorites_policy. simpl.
      rewrite bool_decide_eq_true_2 by done. rewrite lookup_delete_eq.
      split; [done | by intros [? ?]].
    + unfold insert_favorite, favorites_policy. simpl.
      rewrite bool_decide_eq_true_2 by done. simpl.
      case_bool_decide as Hk; [done |].
      rewrite (bool_decide_eq_false_2 (profiles db !! uid = None))
        by (by apply not_eq_None_Some).
      rewrite (bool_decide_eq_false_2 (audio_messages db !! messageId = None))
        by (by apply not_eq_None_Some).
      rewrite lookup_insert_eq. split; eauto.
  - intros Hm Hk. unfold toggleFavorite, insert_favorite, favorites_policy. simpl.
    rewrite bool_decide_eq_true_2 by done. simpl.
    rewrite (bool_decide_eq_false_2 (is_Some _)) by (rewrite Hk; by intros [? ?]).
    rewrite (bool_decide_eq_false_2 (profiles db !! uid = None))
      by (by apply not_eq_None_Some).
    by rewrite (bool_decide_eq_true_2 (audio_messages db !! messageId = None)).
Qed.

Lemma toggleFavorite_flag_and_table_witness :
  is_Some (profiles sample_db_77 !! 4%positive)
  ∧ audio_messages sample_db_77 !! 78%positive = None
  ∧ toggleFavorite 4 78 false sample_db_77 ∅ = (∅, true).
Proof.
  assert (is_Some (profiles sample_db_77 !! 4%positive)) as Hp by (vm_compute; eauto).
  assert (audio_messages sample_db_77 !! 78%positive = None) as Hm
    by (vm_compute; reflexivity).
  split; [exact Hp |]. split; [exact Hm |].
  apply (toggleFavorite_flag_and_table 4 78 false sample_db_77 ∅ Hp); [exact Hm |].
  apply lookup_empty.
Defined.

(** X13.  Toggling twice gives back the table and the flag, when the flag
    agreed with the table and the user's profile and the message exist. *)
Theorem toggleFavorite_twice (uid messageId : uuid) (favorite : bool) (db : database)
    (fs : gmap (uuid * uuid) unit) :
  is_Some (profiles db !! uid) →
  is_Some (audio_messages db !! messageId) →
  (favorite = true ↔ is_Some (fs !! (uid, messageId))) →
  let once := toggleFavorite uid messageId favorite db fs in
  toggleFavorite uid messageId once.2 db once.1 = (fs, favorite).
Proof.
  intros Hp Hm Hflag once. subst once. destruct favorite.
  - destruct (proj1 Hflag eq_refl) as [[] Hk].
    unfold toggleFavorite, delete_favorite, insert_favorite, favorites_policy. simpl.
    rewrite bool_decide_eq_true_2 by done. simpl.
    rewrite (bool_decide_eq_false_2 (is_Some _))
      by (rewrite lookup_delete_eq; by intros [? ?]).
    rewrite (bool_decide_eq_false_2 (profiles db !! uid = None))
      by (by apply not_eq_None_Some).
    rewrite (bool_decide_eq_false_2 (audio_messages db !! messageId = None))
      by (by apply not_eq_None_Some).
    f_equal. rewrite insert_delete_eq. by apply insert_id.
  - assert (fs !! (uid, messageId) = None) as Hk.
    { apply eq_None_not_Some. intros H. by apply Hflag in H. }
    unfold toggleFavorite, delete_favorite, insert_favorite, favorites_policy. simpl.
    rewrite bool_decide_eq_true_2 by done. simpl.
    rewrite (bool_decide_eq_false_2 (is_Some _)) by (rewrite Hk; by intros [? ?]).
    rewrite (bool_decide_eq_false_2 (profiles db !! uid = None))
      by (by apply not_eq_None_Some).
    rewrite (bool_decide_eq_false_2 (audio_messages db !! messageId = None))
      by (by apply not_eq_None_Some).
    f_equal. rewrite delete_insert_eq. by apply delete_id.
Qed.

Lemma toggleFavorite_twice_witness :
  is_Some (profiles sample_db_77 !! 4%positive)
  ∧ is_Some (audio_messages sample_db_77 !! 77%positive)
  ∧ toggleFavorite 4 77 (toggleFavorite 4 77 false sample_db_77 ∅).2 sample_db_77
      (toggleFavorite 4 77 false sample_db_77 ∅).1 = (∅, false).
Proof.
  assert (is_Some (profiles sample_db_77 !! 4%positive)) as Hp by (vm_compute; eauto).
  assert (is_Some (audio_messages sample_db_77 !! 77%positive)) as Hm
    by (vm_compute; eauto).
  split; [exact Hp |]. split; [exact Hm |].
  apply (toggleFavorite_twice 4 77 false sample_db_77 ∅ Hp Hm).
  split; [discriminate |]. rewrite lookup_empty. by intros [? ?].
Defined.

(** X14.  A bookmark of one user is out of reach of every other requester,
    who can neither select, change nor delete it nor insert one in the
    owner's name; and the owner cannot hand it to another user. *)
Theorem bookmarks_are_private (U2 id : uuid) (b : bookmark) (db : database)
    (bs : gmap uuid bookmark) :
  bs !! id = Some b →
  (b_user_id b ≠ U2 →
   visible_bookmarks U2 bs !! id = None
   ∧ delete_bookmark U2 id bs = bs
   ∧ (∀ set, update_bookmark U2 id set db bs = Ok bs)
   ∧ (∀ new_id, insert_bookmark U2 new_id b db bs = Err (rls_violation "bookmarks")))
  ∧ (∀ set, b_user_id (set b) ≠ b_user_id b →
            update_bookmark (b_user_id b) id set db bs = Err (rls_violation "bookmarks"))
  ∧ delete_bookmark (b_user_id b) id bs !! id = None.
Proof.
  intros Hb. split_and!.
  - intros Hne.
    assert (bookmarks_policy U2 b = false) as Hpol
      by (unfold bookmarks_policy; by rewrite bool_decide_eq_false_2).
    split_and!.
    + apply map_lookup_filter_None. right. intros b' Hb'. simpl.
      assert (b' = b) as -> by congruence. by rewrite Hpol.
    + unfold delete_bookmark. by rewrite Hb, Hpol.
    + intros set. unfold update_bookmark. by rewrite Hb, Hpol.
    + intros new_id. unfold insert_bookmark. by rewrite Hpol.
  - intros set Hne. unfold update_bookmark, bookmarks_policy. rewrite Hb.
    rewrite bool_decide_eq_true_2 by done. by rewrite bool_decide_eq_false_2.
  - unfold delete_bookmark, bookmarks_policy. rewrite Hb.
    rewrite bool_decide_eq_true_2 by done. apply lookup_delete_eq.
Qed.

Lemma bookmarks_are_private_witness :
  ({[ 30%positive := Bookmark 77 4 (QArith_base.Qmake 5 1) "start" ]}
     : gmap uuid bookmark) !! 30%positive
  = Some (Bookmark 77 4 (QArith_base.Qmake 5 1) "start")
  ∧ delete_bookmark 2 30 {[ 30%positive := Bookmark 77 4 (QArith_base.Qmake 5 1) "start" ]}
    = {[ 30%positive := Bookmark 77 4 (QArith_base.Qmake 5 1) "start" ]}
  ∧ delete_bookmark 4 30 {[ 30%positive := Bookmark 77 4 (QArith_base.Qmake 5 1) "start" ]}
    !! 30%positive = None.
Proof.
  assert (({[ 30%positive := Bookmark 77 4 (QArith_base.Qmake 5 1) "start" ]}
             : gmap uuid bookmark) !! 30%positive
          = Some (Bookmark 77 4 (QArith_base.Qmake 5 1) "start")) as Hb
    by (vm_compute; reflexivity).
  destruct (bookmarks_are_private 2 30 _ sample_db_77 _ Hb) as (H1 & _ & H3).
  split; [exact Hb |]. split; [| exact H3].
  apply H1. discriminate.
Defined.

(** ** Stored objects and sending a voice message *)

Lemma split_slash_no_slash s : contains_slash s = false → split_slash s = [s].
Proof.
  induction s as [|c s IH]; simpl; [done |].
  intros [Hc Hs]%orb_false_elim. rewrite Hc, (IH Hs). done.
Qed.

(** X15.  An object that lies in no folder, or in another bucket than
    'voices', can be selected by no requester and uploaded by none. *)
Theorem objects_outside_conversation_folders (uuid_of_text : string → option uuid)
    (db : database) (uid : uuid) (o : storage_object) :
  contains_slash (o_name o) = false ∨ o_bucket_id o ≠ "voices" →
  storage_objects_select_policy uuid_of_text db uid o = false
  ∧ storage_objects_insert_policy uuid_of_text db uid o = false.
Proof.
  unfold storage_objects_select_policy, storage_objects_insert_policy.
  intros [Hname|Hbucket].
  - assert (head (foldername (o_name o)) = None) as ->.
    { unfold foldername, string_to_array. case_bool_decide; [done |].
      by rewrite split_slash_no_slash. }
    simpl. by rewrite andb_false_r.
  - by rewrite bool_decide_eq_false_2.
Qed.

Lemma objects_outside_conversation_folders_witness :
  contains_slash "77.mp3" = false
  ∧ storage_objects_select_policy sample_uuid_of_text sample_db_10 4
      (StorageObject "voices" "77.mp3" (Some 4%positive)) = false.
Proof.
  split; [reflexivity |].
  apply (objects_outside_conversation_folders sample_uuid_of_text sample_db_10 4
           (StorageObject "voices" "77.mp3" (Some 4%positive))).
  left. reflexivity.
Defined.

(** The first folder of the path of a voice message is its conversation. *)
Lemma filePath_conversation (uuid_of_text : string → option uuid)
    (text_of_uuid : uuid → string) (conversationId messageId : uuid) :
  uuid_of_text (text_of_uuid conversationId) = Some conversationId →
  contains_slash (text_of_uuid conversationId) = false →
  head (foldername (filePath text_of_uuid conversationId messageId)) ≫= uuid_of_text
  = Some conversationId.
Proof.
  intros Hcast Hslash. unfold filePath.
  rewrite (foldername_prefix _ _ Hslash). simpl. exact Hcast.
Qed.

(** X16.  A voice message sent by a requester who is no member of the
    conversation leaves no trace: the upload is refused, no row is inserted
    and the recorder keeps its blob. *)
Theorem send_by_non_member (uuid_of_text : string → option uuid)
    (text_of_uuid : uuid → string) (uid conversationId messageId : uuid)
    (db : database) (objs : objects) (st : recorder) :
  uuid_of_text (text_of_uuid conversationId) = Some conversationId →
  contains_slash (text_of_uuid conversationId) = false →
  is_conversation_member db uid conversationId = false →
  upload uuid_of_text uid "voices" (filePath text_of_uuid conversationId messageId) db objs
  = Err (rls_violation "objects")
  ∧ sendVoiceMessage uuid_of_text text_of_uuid uid conversationId messageId (db, objs, st)
    = (db, objs, st).
Proof.
  intros Hcast Hslash Hmem.
  assert (upload uuid_of_text uid "voices"
            (filePath text_of_uuid conversationId messageId) db objs
          = Err (rls_violation "objects")) as Hup.
  { unfold upload, storage_objects_insert_policy. simpl.
    rewrite (filePath_conversation _ _ _ _ Hcast Hslash), Hmem. done. }
  split; [exact Hup |]. unfold sendVoiceMessage.
  destruct (audioBlob st); simpl; [| done]. by rewrite Hup.
Qed.

Lemma send_by_non_member_witness :
  sample_uuid_of_text (sample_text_of_uuid 10) = Some 10%positive
  ∧ contains_slash (sample_text_of_uuid 10) = false
  ∧ is_conversation_member sample_db_10 5 10 = false
  ∧ sendVoiceMessage sample_uuid_of_text sample_text_of_uuid 5 10 77
      (sample_db_10, ∅, Recorder false 12 true (Some inactive) false 1747200000000)
    = (sample_db_10, ∅, Recorder false 12 true (Some inactive) false 1747200000000).
Proof.
  split; [reflexivity |]. split; [reflexivity |].
  split; [vm_compute; reflexivity |].
  apply (send_by_non_member sample_uuid_of_text sample_text_of_uuid 5 10 77);
    vm_compute; reflexivity.
Defined.

(** X17.  A member who sends a recorded voice message under a new message
    identifier stores the object and the message row, with the path as
    [audio_url] and the recorder's time as duration, and the recorder is
    cleared.  From then on a principal can select the object exactly when it
    can select the message, that is when it is a member of the conversation. *)
Theorem send_by_member (uuid_of_text : string → option uuid)
    (text_of_uuid : uuid → string) (uid conversationId messageId : uuid)
    (db : database) (objs : objects) (st : recorder) :
  uuid_of_text (text_of_uuid conversationId) = Some conversationId →
  contains_slash (text_of_uuid conversationId) = false →
  audioBlob st = true →
  is_conversation_member db uid conversationId = true →
  is_Some (conversations db !! conversationId) →
  is_Some (profiles db !! uid) →
  audio_messages db !! messageId = None →
  objs !! ("voices", filePath text_of_uuid conversationId messageId) = None →
  let path := filePath text_of_uuid conversationId messageId in
  let msg := AudioMessage conversationId uid path (recordingTime st) in
  let obj := StorageObject "voices" path (Some uid) in
  ∃ db' st',
    sendVoiceMessage uuid_of_text text_of_uuid uid conversationId messageId (db, objs, st)
    = (db', <[("voices", path) := obj]> objs, st')
    ∧ db' = with_audio_messages (<[messageId := msg]> (audio_messages db)) db
    ∧ audioBlob st' = false ∧ recordingTime st' = 0%Z
    ∧ ∀ P, storage_objects_select_policy uuid_of_text db' P obj
           = is_conversation_member db' P conversationId
           ∧ audio_messages_select_policy db' P msg
             = is_conversation_member db' P conversationId.
Proof.
  intros Hcast Hslash Hblob Hmem Hconv Hprof Hfresh Hobj path msg obj.
  subst obj msg path.
  pose proof (filePath_conversation _ _ _ messageId Hcast Hslash) as Hfolder.
  set (path := filePath text_of_uuid conversationId messageId) in *.
  assert (upload uuid_of_text uid "voices" path db objs
          = Ok (<[("voices", path) := StorageObject "voices" path (Some uid)]> objs))
    as Hup.
  { unfold upload, storage_objects_insert_policy. simpl.
    rewrite Hfolder, Hmem, bool_decide_eq_true_2 by done. simpl.
    rewrite bool_decide_eq_false_2; [done |]. rewrite Hobj. by intros [? ?]. }
  set (msg := AudioMessage conversationId uid path (recordingTime st)).
  assert (insert_audio_message uid messageId msg db
          = Ok (with_audio_messages (<[messageId := msg]> (audio_messages db)) db))
    as Hins.
  { unfold insert_audio_message, audio_messages_insert_policy. simpl.
    rewrite Hmem, bool_decide_eq_true_2 by done. simpl.
    rewrite (bool_decide_eq_false_2 (is_Some _)) by (rewrite Hfresh; by intros [? ?]).
    rewrite (bool_decide_eq_false_2 (conversations db !! conversationId = None))
      by (by apply not_eq_None_Some).
    rewrite (bool_decide_eq_false_2 (profiles db !! uid = None))
      by (by apply not_eq_None_Some).
    done. }
  eexists _, _. split.
  { unfold sendVoiceMessage. rewrite Hblob. simpl. fold path. rewrite Hup.
    fold msg. rewrite Hins. reflexivity. }
  split; [done |]. split; [done |]. split; [done |].
  intros P. split.
  - unfold storage_objects_select_policy. simpl. by rewrite Hfolder.
  - done.
Qed.

Lemma send_by_member_witness :
  sample_uuid_of_text (sample_text_of_uuid 10) = Some 10%positive
  ∧ contains_slash (sample_text_of_uuid 10) = false
  ∧ is_conversation_member sample_db_10 4 10 = true
  ∧ ∃ db' st',
      sendVoiceMessage sample_uuid_of_text sample_text_of_uuid 4 10 77
        (sample_db_10, ∅, Recorder false 12 true (Some inactive) false 1747200000000)
      = (db', {[ ("voices", "10/77.mp3") := StorageObject "voices" "10/77.mp3" (Some 4%positive) ]}, st')
      ∧ db' = sample_db_77.
Proof.
  split; [reflexivity |]. split; [reflexivity |].
  split; [vm_compute; reflexivity |].
  destruct (send_by_member sample_uuid_of_text sample_text_of_uuid 4 10 77
              sample_db_10 ∅
              (Recorder false 12 true (Some inactive) false 1747200000000))
    as (db' & st' & Hsend & Hdb & _).
  - reflexivity.
  - reflexivity.
  - reflexivity.
  - vm_compute. reflexivity.
  - vm_compute. eauto.
  - vm_compute. eauto.
  - vm_compute. reflexivity.
  - apply lookup_empty.
  - exists db', st'. split; [exact Hsend |]. rewrite Hdb. vm_compute. reflexivity.
Defined.

(** X18.  The upload and the insert are two requests: when the object is
    stored and the message row is then refused, here because its identifier
    is taken, the object stays in the bucket without a message and the
    recorder keeps its blob. *)
Theorem send_leaves_object_behind (uuid_of_text : string → option uuid)
    (text_of_uuid : uuid → string) (uid conversationId messageId : uuid)
    (db : database) (objs : objects) (st : recorder) :
  uuid_of_text (text_of_uuid conversationId) = Some conversationId →
  contains_slash (text_of_uuid conversationId) = false →
  audioBlob st = true →
  is_conversation_member db uid conversationId = true →
  is_Some (audio_messages db !! messageId) →
  objs !! ("voices", filePath text_of_uuid conversationId messageId) = None →
  sendVoiceMessage uuid_of_text text_of_uuid uid conversationId messageId (db, objs, st)
  = (db,
     <[("voices", filePath text_of_uuid conversationId messageId)
       := StorageObject "voices" (filePath text_of_uuid conversationId messageId)
            (Some uid)]> objs,
     st).
Proof.
  intros Hcast Hslash Hblob Hmem Htaken Hobj.
  pose proof (filePath_conversation _ _ _ messageId Hcast Hslash) as Hfolder.
  unfold sendVoiceMessage. rewrite Hblob. simpl.
  unfold upload, storage_objects_insert_policy. simpl.
  rewrite Hfolder, Hmem, bool_decide_eq_true_2 by done. simpl.
  rewrite (bool_decide_eq_false_2 (is_Some (objs !! _)))
    by (rewrite Hobj; by intros [? ?]).
  unfold insert_audio_message, audio_messages_insert_policy. simpl.
  rewrite Hmem, bool_decide_eq_true_2 by done. simpl.
  by rewrite (bool_decide_eq_true_2 (is_Some _)).
Qed.

Lemma send_leaves_object_behind_witness :
  sample_uuid_of_text (sample_text_of_uuid 10) = Some 10%positive
  ∧ is_Some (audio_messages sample_db_77 !! 77%positive)
  ∧ sendVoiceMessage sample_uuid_of_text sample_text_of_uuid 2 10 77
      (sample_db_77, ∅, Recorder false 3 true (Some inactive) false 1747200000000)
    = (sample_db_77,
       {[ ("voices", "10/77.mp3") := StorageObject "voices" "10/77.mp3" (Some 2%positive) ]},
       Recorder false 3 true (Some inactive) false 1747200000000).
Proof.
  split; [reflexivity |]. split; [vm_compute; eauto |].
  rewrite (send_leaves_object_behind sample_uuid_of_text sample_text_of_uuid 2 10 77).
  - reflexivity.
  - reflexivity.
  - reflexivity.
  - reflexivity.
  - vm_compute. reflexivity.
  - vm_compute. eauto.
  - apply lookup_empty.
Defined.

(** * Further properties of the recorders *)

Lemma session_app es1 es2 :
  session (es1 ++ es2) = foldl dispatch (session es1) es2.
Proof. unfold session. apply foldl_app. Qed.

(** What the events that need no user leave alone. *)
Lemma timed_events_frame es : ∀ st,
  forallb timed es = true →
  mediaRecorderRef st = Some recording →
  let st' := foldl dispatch st es in
  mediaRecorderRef st' = Some recording
  ∧ isRecording st' = isRecording st
  ∧ audioBlob st' = audioBlob st
  ∧ startTimeRef st' = startTimeRef st.
Proof.
  induction es as [|e es IH]; intros st Hes Hrec; simpl in *; [done |].
  apply andb_true_iff in Hes as [He Hes].
  assert (mediaRecorderRef (dispatch st e) = Some recording
          ∧ isRecording (dispatch st e) = isRecording st
          ∧ audioBlob (dispatch st e) = audioBlob st
          ∧ startTimeRef (dispatch st e) = startTimeRef st) as (H1 & H2 & H3 & H4).
  { destruct e as [now|now| | |[|]]; try discriminate; simpl.
    - destruct (timerRef st); [| done]. unfold updateTimer.
      by destruct (startTimeRef st =? 0)%Z.
    - unfold effect_cleanup. simpl. by rewrite Hrec. }
  destruct (IH (dispatch st e) Hes H1) as (? & ? & ? & ?).
  split_and!; congruence.
Qed.

(** X19.  A click on stop ends a recording, however long the timer has run:
    the recorder is inactive, the blob is set, the interval is cleared and
    the time shown stays the last one counted.  Further clicks on stop and
    further firings change nothing. *)
Theorem stop_ends_recording (t0 : Z) (es : list event) :
  forallb timed es = true →
  let before := session (Start t0 :: es) in
  let st := session (Start t0 :: es ++ [ClickStop]) in
  mediaRecorderRef st = Some inactive
  ∧ isRecording st = false
  ∧ audioBlob st = true
  ∧ timerRef st = false
  ∧ recordingTime st = recordingTime before
  ∧ dispatch st ClickStop = st
  ∧ ∀ now, dispatch st (Tick now) = st.
Proof.
  intros Hes before st.
  assert (mediaRecorderRef before = Some recording ∧ isRecording before = true)
    as [Hrec Hrun].
  { unfold before, session. simpl.
    destruct (timed_events_frame es (startRecording t0 initial_recorder) Hes eq_refl)
      as (? & ? & _). done. }
  assert (st = stopRecording (isRecording before) before) as Hst.
  { unfold st, before. by rewrite (app_comm_cons es [ClickStop] (Start t0)), session_app. }
  rewrite Hst, Hrun. unfold stopRecording, mediaRecorder_stop. rewrite Hrec. simpl.
  split_and!; done.
Qed.

Lemma stop_ends_recording_witness :
  forallb timed [Tick 1747200001000; Tick 1747200002500] = true
  ∧ recordingTime (session (Start 1747200000000
                              :: [Tick 1747200001000; Tick 1747200002500] ++ [ClickStop]))
    = 2%Z
  ∧ audioBlob (session (Start 1747200000000
                          :: [Tick 1747200001000; Tick 1747200002500] ++ [ClickStop]))
    = true.
Proof.
  assert (forallb timed [Tick 1747200001000; Tick 1747200002500] = true) as H
    by reflexivity.
  destruct (stop_ends_recording 1747200000000 _ H) as (_ & _ & Hb & _ & Ht & _).
  split; [exact H |]. split; [rewrite Ht; vm_compute; reflexivity | exact Hb].
Defined.

(** X20.  While the interval runs, the time shown after a firing is the
    number of whole seconds between the start and that firing. *)
Theorem recordingTime_is_whole_seconds (t0 now : Z) (ts : list Z) :
  t0 ≠ 0%Z → (t0 ≤ now)%Z →
  let st := session (Start t0 :: (Tick <$> ts) ++ [Tick now]) in
  recordingTime st = ((now - t0) / 1000)%Z
  ∧ (0 ≤ recordingTime st)%Z
  ∧ (recordingTime st * 1000 ≤ now - t0 < (recordingTime st + 1) * 1000)%Z.
Proof.
  intros Ht0 Hle st.
  set (before := session (Start t0 :: (Tick <$> ts))).
  assert (timerRef before = true ∧ startTimeRef before = t0) as [Htimer Hstart].
  { unfold before, session. simpl.
    generalize (startRecording t0 initial_recorder) (eq_refl : timerRef (startRecording t0 initial_recorder) = true)
               (eq_refl : startTimeRef (startRecording t0 initial_recorder) = t0).
    induction ts as [|t ts IH]; intros s Hs1 Hs2; simpl; [done |].
    apply IH.
    - rewrite Hs1. unfold updateTimer. by destruct (startTimeRef s =? 0)%Z.
    - rewrite Hs1. unfold updateTimer. by destruct (startTimeRef s =? 0)%Z. }
  assert (st = dispatch before (Tick now)) as ->.
  { unfold st, before.
    by rewrite (app_comm_cons (Tick <$> ts) [Tick now] (Start t0)), session_app. }
  simpl. rewrite Htimer. unfold updateTimer. rewrite Hstart.
  destruct (t0 =? 0)%Z eqn:Hz; [apply Z.eqb_eq in Hz; done |]. simpl.
  split; [done |]. split.
  - apply Z.div_pos; lia.
  - pose proof (Z.mul_div_le (now - t0) 1000 ltac:(lia)).
    pose proof (Z.mul_succ_div_gt (now - t0) 1000 ltac:(lia)). lia.
Qed.

Lemma recordingTime_is_whole_seconds_witness :
  (1747200000000 ≠ 0)%Z ∧ (1747200000000 ≤ 1747200061999)%Z
  ∧ recordingTime (session (Start 1747200000000
                              :: (Tick <$> [1747200001000%Z]) ++ [Tick 1747200061999]))
    = 61%Z.
Proof.
  split; [discriminate |]. split; [discriminate |].
  destruct (recordingTime_is_whole_seconds 1747200000000 1747200061999 [1747200001000%Z])
    as (H & _); [discriminate | discriminate |].
  rewrite H. reflexivity.
Defined.

(** X21.  Once the cleanup of the effect of the previous render has run, the
    interval is gone: however long the recording lasts, the time shown stays
    0, and 0 is the duration a message sent after stopping would carry. *)
Theorem recordingTime_stays_zero_after_cleanup (t0 : Z) (ts : list Z) :
  let st := session (Start t0 :: Cleanup false :: (Tick <$> ts) ++ [ClickStop]) in
  recordingTime st = 0%Z
  ∧ mediaRecorderRef st = Some inactive
  ∧ audioBlob st = true.
Proof.
  intros st.
  set (s0 := effect_cleanup false (startRecording t0 initial_recorder)).
  assert (foldl dispatch s0 (Tick <$> ts) = s0) as Hticks.
  { induction ts as [|t ts IH]; simpl; [done | exact IH]. }
  assert (st = dispatch s0 ClickStop) as ->.
  { unfold st, session. simpl. fold s0. by rewrite foldl_app, Hticks. }
  done.
Qed.

(** X22.  Discarding a stopped recording clears the blob and the time, and
    without a blob sending does nothing. *)
Theorem cancel_discards_recording (uuid_of_text : string → option uuid)
    (text_of_uuid : uuid → string) (uid conversationId messageId : uuid)
    (db : database) (objs : objects) (t0 : Z) (es : list event) :
  forallb timed es = true →
  let st := session (Start t0 :: es ++ [ClickStop; ClickCancel]) in
  audioBlob st = false
  ∧ recordingTime st = 0%Z
  ∧ isRecording st = false
  ∧ mediaRecorderRef st = Some inactive
  ∧ sendVoiceMessage uuid_of_text text_of_uuid uid conversationId messageId (db, objs, st)
    = (db, objs, st).
Proof.
  intros Hes st.
  destruct (timed_events_frame es (startRecording t0 initial_recorder) Hes eq_refl)
    as (Hrec & Hrun & _ & _).
  set (before := foldl dispatch (startRecording t0 initial_recorder) es) in *.
  assert (st = dispatch (dispatch before ClickStop) ClickCancel) as Hst.
  { unfold st, before, session. simpl. by rewrite !foldl_app. }
  assert (audioBlob st = false ∧ recordingTime st = 0%Z ∧ isRecording st = false
          ∧ mediaRecorderRef st = Some inactive) as (H1 & H2 & H3 & H4).
  { rewrite Hst. simpl. rewrite Hrun.
    unfold cancelRecording, stopRecording, mediaRecorder_stop. rewrite Hrec. simpl.
    done. }
  split_and!; try done.
  unfold sendVoiceMessage. by rewrite H1.
Qed.

Lemma cancel_discards_recording_witness :
  forallb timed [Tick 1747200001000] = true
  ∧ audioBlob (session (Start 1747200000000
                          :: [Tick 1747200001000] ++ [ClickStop; ClickCancel])) = false.
Proof.
  assert (forallb timed [Tick 1747200001000] = true) as H by reflexivity.
  split; [exact H |].
  exact (proj1 (cancel_discards_recording sample_uuid_of_text sample_text_of_uuid
                  4 10 77 sample_db_10 ∅ 1747200000000 _ H)).
Defined.

(** ** The message input *)

(** What the timers of the message input leave alone once it records. *)
Lemma mi_timed_events_frame es : ∀ st,
  forallb mi_timed es = true →
  mi_mediaRecorderRef st = Some recording →
  mi_startedWith st = false →
  let st' := foldl mi_dispatch st es in
  mi_mediaRecorderRef st' = Some recording
  ∧ mi_isRecording st' = mi_isRecording st
  ∧ mi_audioBlob st' = mi_audioBlob st
  ∧ mi_startedWith st' = false.
Proof.
  induction es as [|e es IH]; intros st Hes Hrec Hseen; simpl in *; [done |].
  apply andb_true_iff in Hes as [He Hes].
  assert (mi_mediaRecorderRef (mi_dispatch st e) = Some recording
          ∧ mi_isRecording (mi_dispatch st e) = mi_isRecording st
          ∧ mi_audioBlob (mi_dispatch st e) = mi_audioBlob st
          ∧ mi_startedWith (mi_dispatch st e) = false) as (H1 & H2 & H3 & H4).
  { destruct e as [| | | |[|]]; try discriminate; simpl.
    - by destruct (mi_timerRef st).
    - destruct (mi_recordingTimeoutRef st); [| done].
      unfold mi_stopRecording. by rewrite Hrec, Hseen.
    - unfold mi_effect_cleanup. by rewrite Hrec. }
  destruct (IH (mi_dispatch st e) Hes H1 H4) as (? & ? & ? & ?).
  split_and!; congruence.
Qed.

(** X23.  The 15-minute timeout of the message input never stops a
    recording: its callback is the [stopRecording] of the render in which
    recording had not begun.  Whatever the timers do, and whenever the
    timeout fires, the recorder goes on until the user clicks stop. *)
Theorem mi_timeout_never_stops (es : list mi_event) :
  forallb mi_timed es = true →
  mi_mediaRecorderRef (mi_session (MiStart :: es)) = Some recording
  ∧ mi_isRecording (mi_session (MiStart :: es)) = true
  ∧ mi_mediaRecorderRef (mi_session (MiStart :: es ++ [MiClickStop])) = Some inactive
  ∧ mi_audioBlob (mi_session (MiStart :: es ++ [MiClickStop])) = true.
Proof.
  intros Hes. unfold mi_session. simpl.
  destruct (mi_timed_events_frame es (mi_startRecording initial_message_input)
              Hes eq_refl eq_refl) as (Hrec & Hrun & _ & _).
  split; [exact Hrec |]. split; [exact Hrun |].
  rewrite foldl_app. simpl. unfold mi_stopRecording. rewrite Hrec, Hrun. done.
Qed.

Lemma mi_timeout_never_stops_witness :
  forallb mi_timed (replicate 900 MiTick ++ [MiTimeout; MiTick]) = true
  ∧ mi_mediaRecorderRef
      (mi_session (MiStart :: replicate 900 MiTick ++ [MiTimeout; MiTick]))
    = Some recording.
Proof.
  assert (forallb mi_timed (replicate 900 MiTick ++ [MiTimeout; MiTick]) = true) as H
    by (vm_compute; reflexivity).
  split; [exact H |]. exact (proj1 (mi_timeout_never_stops _ H)).
Defined.

Lemma mi_ticks_count n : ∀ st,
  mi_timerRef st = true → mi_mediaRecorderRef st = Some recording →
  mi_isRecording st = true →
  mi_recordingTime (foldl mi_dispatch st (replicate n MiTick ++ [MiClickStop]))
  = (mi_recordingTime st + Z.of_nat n)%Z.
Proof.
  induction n as [|n IH]; intros st Ht Hrec Hrun.
  - simpl. unfold mi_stopRecording. rewrite Hrec, Hrun. simpl. lia.
  - cbn [replicate app foldl]. rewrite IH.
    + simpl. rewrite Ht. simpl. lia.
    + simpl. by rewrite Ht.
    + simpl. by rewrite Ht.
    + simpl. by rewrite Ht.
Qed.

Lemma mi_ticks_cleared n : ∀ st,
  mi_timerRef st = false → mi_mediaRecorderRef st = Some recording →
  mi_isRecording st = true →
  mi_recordingTime (foldl mi_dispatch st (replicate n MiTick ++ [MiClickStop]))
  = mi_recordingTime st.
Proof.
  induction n as [|n IH]; intros st Ht Hrec Hrun.
  - simpl. unfold mi_stopRecording. by rewrite Hrec, Hrun.
  - cbn [replicate app foldl]. simpl. rewrite Ht. by apply IH.
Qed.

(** X24.  The message input counts firings: after [n] firings of its interval
    the time shown, and kept when the user stops, is [n] seconds; once the
    cleanup of the previous effect has cleared the interval it stays 0. *)
Theorem mi_recordingTime_counts_firings (n : nat) :
  mi_recordingTime (mi_session (MiStart :: replicate n MiTick ++ [MiClickStop]))
  = Z.of_nat n
  ∧ mi_recordingTime
      (mi_session (MiStart :: MiCleanup false :: replicate n MiTick ++ [MiClickStop]))
    = 0%Z.
Proof.
  unfold mi_session. split.
  - cbn [foldl]. rewrite mi_ticks_count; done.
  - cbn [foldl]. rewrite mi_ticks_cleared; done.
Qed.

(** ** Folder items belong to the folder's owner *)

Lemma folder_items_policy_true db R folder_id :
  folder_items_policy db R folder_id = true ↔ owns_folder db R folder_id.
Proof.
  unfold folder_items_policy, owns_folder. rewrite bool_decide_eq_true. split.
  - intros [f Hf]. apply visible_folders_lookup in Hf. eauto.
  - intros (f & Hf & Ho). exists f. by apply visible_folders_lookup.
Qed.

(** X25.  Only the owner of a folder can take an item out of it: a delete by
    anyone else changes nothing, a delete by the owner removes that item and
    no other. *)
Theorem folder_item_delete_owner_only db (R folder_id message_id : uuid) (f : folder) :
  folders db !! folder_id = Some f →
  (f_owner_id f ≠ R → delete_folder_item R folder_id message_id db = db)
  ∧ (f_owner_id f = R →
     ∀ k, folder_items (delete_folder_item R folder_id message_id db) !! k
          = if decide (k = (folder_id, message_id)) then None else folder_items db !! k).
Proof.
  intros Hf. split.
  - intros Hne. unfold delete_folder_item.
    destruct (folder_items_policy db R folder_id) eqn:Hpol; [| done].
    apply folder_items_policy_true in Hpol as (f' & Hf' & Ho). congruence.
  - intros Ho k. unfold delete_folder_item.
    rewrite (proj2 (folder_items_policy_true db R folder_id)) by (by exists f).
    simpl. destruct (decide (k = (folder_id, message_id))) as [->|Hne].
    + apply lookup_delete_eq.
    + by apply lookup_delete_ne.
Qed.

Lemma folder_item_delete_owner_only_witness :
  folders sample_db_filed !! 20%positive = Some (Folder 4 "Keep")
  ∧ delete_folder_item 2 20 77 sample_db_filed = sample_db_filed
  ∧ folder_items (delete_folder_item 4 20 77 sample_db_filed) !! (20, 77)%positive = None.
Proof.
  assert (folders sample_db_filed !! 20%positive = Some (Folder 4 "Keep")) as Hf
    by (vm_compute; reflexivity).
  destruct (folder_item_delete_owner_only sample_db_filed 2 20 77 _ Hf) as [H1 _].
  destruct (folder_item_delete_owner_only sample_db_filed 4 20 77 _ Hf) as [_ H2].
  split; [exact Hf |]. split; [apply H1; discriminate |].
  exact (H2 eq_refl (20, 77)%positive).
Defined.

(** X26.  Filing a message in a folder and taking it out again gives back the
    database as it was. *)
Theorem folder_item_insert_then_delete db db' (R folder_id message_id : uuid) :
  insert_folder_item R folder_id message_id db = Ok db' →
  delete_folder_item R folder_id message_id db' = db.
Proof.
  intros H.
  assert (folder_items_insert_policy db R folder_id message_id = true
          ∧ folder_items db !! (folder_id, message_id) = None) as [Hpol Hnone].
  { unfold insert_folder_item in H.
    destruct (folder_items_insert_policy db R folder_id message_id);
      [simpl in H | discriminate].
    case_bool_decide as Hk; [discriminate |]. split; [done |].
    by apply eq_None_not_Some. }
  apply insert_folder_item_Ok in H as ->.
  apply folder_items_insert_policy_true in Hpol as [Hown _].
  set (db1 := with_folder_items
                (<[(folder_id, message_id) := ()]> (folder_items db)) db).
  assert (folder_items_policy db1 R folder_id = true) as Hdel.
  { apply folder_items_policy_true. exact Hown. }
  unfold delete_folder_item. rewrite Hdel. unfold db1, with_folder_items. simpl.
  rewrite delete_insert_eq. rewrite delete_id by exact Hnone. by destruct db.
Qed.

Lemma folder_item_insert_then_delete_witness :
  insert_folder_item 4 20 77 (with_folder_items ∅ sample_db_filed) = Ok sample_db_filed
  ∧ delete_folder_item 4 20 77 sample_db_filed = with_folder_items ∅ sample_db_filed.
Proof.
  assert (insert_folder_item 4 20 77 (with_folder_items ∅ sample_db_filed)
          = Ok sample_db_filed) as H by (vm_compute; reflexivity).
  split; [exact H |].
  exact (folder_item_insert_then_delete _ _ 4 20 77 H).
Defined.
